(** * MindTrace: a sentiment journal

    A shallow embedding of the journal's core: the sentiment classifier
    (src/sentiment.py), the file-backed entry store with its statistics,
    export and recency filter (src/utils.py), and the filter composition
    of the Journal History page (src/app.py).

    Python values are modelled as follows.
    - [str] is a sequence of Unicode code points ([list N]).
    - [float] is the kernel's binary64 type, the same format as Python's.
    - A naive [datetime] is a point on the proleptic Gregorian time line,
      counted in microseconds since 0001-01-01 00:00:00.
    - An operation of [DataManager] is a function of the world (the backing
      file and the wall clock) that returns a value or raises, together
      with the world it leaves behind. *)

From Stdlib Require Import ZArith List Bool Lia Floats String Ascii.
Import ListNotations.

#[local] Set Warnings "-inexact-float".
#[local] Open Scope Z_scope.

(* ===================================================================== *)
(** ** Python strings, exceptions and results *)
(* ===================================================================== *)

Module Py.

Definition str := list N.

(** A literal of the source, as code points. *)
Definition lit (s : string) : str :=
  List.map N_of_ascii (list_ascii_of_string s).

(** [a == b] on strings. *)
Fixpoint str_eqb (a b : str) : bool :=
  match a, b with
  | [], [] => true
  | x :: a', y :: b' => N.eqb x y && str_eqb a' b'
  | _, _ => false
  end.

(** [c.isspace()] for one code point: the characters [str.strip()]
    removes when it is called without argument. *)
Definition isspace (c : N) : bool :=
  (((9 <=? c) && (c <=? 13)) || ((28 <=? c) && (c <=? 32))
   || (c =? 133) || (c =? 160) || (c =? 5760)
   || ((8192 <=? c) && (c <=? 8202))
   || (c =? 8232) || (c =? 8233) || (c =? 8239) || (c =? 8287)
   || (c =? 12288))%N.

Fixpoint lstrip (s : str) : str :=
  match s with
  | c :: r => if isspace c then lstrip r else s
  | [] => []
  end.

Definition rstrip (s : str) : str := rev (lstrip (rev s)).

(** [s.strip()] *)
Definition strip (s : str) : str := rstrip (lstrip s).

(** Truth value of a string: [not s] holds of the empty string only. *)
Definition truthy (s : str) : bool :=
  match s with [] => false | _ :: _ => true end.

(** [s.lower()] on the letters A-Z.  No other code point lowercases to
    a letter of the two format names compared against below, so the
    comparisons [format.lower() == "json"] and [== "csv"] are decided
    by this part of the case mapping. *)
Definition lower_char (c : N) : N :=
  if ((65 <=? c) && (c <=? 90))%N then (c + 32)%N else c.

Definition lower (s : str) : str := List.map lower_char s.

(** A code point UTF-8 can encode: any but the surrogates. *)
Definition utf8_char (c : N) : bool :=
  ((c <? 55296) || ((57343 <? c) && (c <=? 1114111)))%N.

(** [s.encode("utf-8")] succeeds. *)
Definition encodable (s : str) : bool := forallb utf8_char s.

(** The exceptions met.  [TimeDataError] is the [ValueError] that
    [datetime.strptime] raises on a data string; Python words it in
    several ways, and the wording is not modelled. *)
Inductive exn : Type :=
| ValueError (msg : str)
| TimeDataError (data_string : str)
| KeyError (key : str)
| OverflowError
| FileNotFoundError
| JSONDecodeError
| UnicodeDecodeError
| UnicodeEncodeError.

Inductive result (A : Type) : Type :=
| Ok (a : A)
| Raise (e : exn).
Arguments Ok {A} a.
Arguments Raise {A} e.

End Py.
Import Py.

(* ===================================================================== *)
(** ** Naive datetimes *)
(* ===================================================================== *)

Module PyTime.

(** Microseconds since 0001-01-01 00:00:00 ([datetime.min]). *)
Definition datetime := Z.

Definition US_PER_SECOND : Z := 1000000.
Definition US_PER_MINUTE : Z := 60 * US_PER_SECOND.
Definition US_PER_HOUR : Z := 60 * US_PER_MINUTE.
Definition US_PER_DAY : Z := 24 * US_PER_HOUR.

(** The calendar arithmetic of the [datetime] module. *)
Definition is_leap (year : Z) : bool :=
  (year mod 4 =? 0) && (negb (year mod 100 =? 0) || (year mod 400 =? 0)).

Definition days_before_year (year : Z) : Z :=
  let y := year - 1 in y * 365 + y / 4 - y / 100 + y / 400.

Definition DAYS_IN_MONTH : list Z :=
  [31; 28; 31; 30; 31; 30; 31; 31; 30; 31; 30; 31].

Definition DAYS_BEFORE_MONTH : list Z :=
  [0; 31; 59; 90; 120; 151; 181; 212; 243; 273; 304; 334].

Definition month_entry (table : list Z) (month : Z) : Z :=
  nth (Z.to_nat (month - 1)) table 0.

Definition days_in_month (year month : Z) : Z :=
  if (month =? 2) && is_leap year then 29
  else month_entry DAYS_IN_MONTH month.

Definition days_before_month (year month : Z) : Z :=
  month_entry DAYS_BEFORE_MONTH month
  + (if (2 <? month) && is_leap year then 1 else 0).

(** Ordinal of a date, 0001-01-01 being day 1. *)
Definition ymd2ord (year month day : Z) : Z :=
  days_before_year year + days_before_month year month + day.

Definition DI400Y : Z := 146097.
Definition DI100Y : Z := 36524.
Definition DI4Y : Z := 1461.

(** The date of an ordinal. *)
Definition ord2ymd (ordinal : Z) : Z * Z * Z :=
  let n := ordinal - 1 in
  let n400 := n / DI400Y in
  let n := n mod DI400Y in
  let n100 := n / DI100Y in
  let n := n mod DI100Y in
  let n4 := n / DI4Y in
  let n := n mod DI4Y in
  let n1 := n / 365 in
  let n := n mod 365 in
  let year := n400 * 400 + 1 + n100 * 100 + n4 * 4 + n1 in
  if (n1 =? 4) || (n100 =? 4) then (year - 1, 12, 31)
  else
    let leapyear := (n1 =? 3) && (negb (n4 =? 24) || (n100 =? 3)) in
    let month := Z.shiftr (n + 50) 5 in
    let preceding :=
      month_entry DAYS_BEFORE_MONTH month
      + (if (2 <? month) && leapyear then 1 else 0) in
    if n <? preceding then
      let month' := month - 1 in
      let preceding' :=
        preceding
        - (month_entry DAYS_IN_MONTH month'
           + (if (month' =? 2) && leapyear then 1 else 0)) in
      (year, month', n - preceding' + 1)
    else (year, month, n - preceding + 1).

Record fields : Type := mk_fields {
  year : Z; month : Z; day : Z;
  hour : Z; minute : Z; second : Z; microsecond : Z
}.

Definition fields_of (t : datetime) : fields :=
  let days := t / US_PER_DAY in
  let rest := t mod US_PER_DAY in
  let '(y, m, d) := ord2ymd (days + 1) in
  {| year := y; month := m; day := d;
     hour := rest / US_PER_HOUR;
     minute := (rest mod US_PER_HOUR) / US_PER_MINUTE;
     second := (rest mod US_PER_MINUTE) / US_PER_SECOND;
     microsecond := rest mod US_PER_SECOND |}.

Definition of_fields (f : fields) : datetime :=
  (ymd2ord (year f) (month f) (day f) - 1) * US_PER_DAY
  + hour f * US_PER_HOUR + minute f * US_PER_MINUTE
  + second f * US_PER_SECOND + microsecond f.

(** [datetime.max], 9999-12-31 23:59:59.999999. *)
Definition MAX : datetime := ymd2ord 9999 12 31 * US_PER_DAY - 1.

(** Zero-padded decimal rendering of a field. *)
Definition digit (n : Z) : N := Z.to_N (48 + n mod 10).

Fixpoint zpad (width : nat) (n : Z) : str :=
  match width with
  | O => []
  | S w => zpad w (n / 10) ++ [digit n]
  end.

(** [%Y] as the C library of Linux writes it: the year in decimal, not
    padded, so with fewer than four digits before the year 1000. *)
Definition year_digits (y : Z) : str :=
  if y <? 10 then zpad 1 y
  else if y <? 100 then zpad 2 y
  else if y <? 1000 then zpad 3 y
  else zpad 4 y.

(** [t.strftime("%Y-%m-%d %H:%M")] *)
Definition strftime_minute (t : datetime) : str :=
  let f := fields_of t in
  year_digits (year f) ++ lit "-" ++ zpad 2 (month f) ++ lit "-"
  ++ zpad 2 (day f) ++ lit " " ++ zpad 2 (hour f) ++ lit ":"
  ++ zpad 2 (minute f).

(** [t.isoformat()]: the fraction is written only when it is not zero. *)
Definition isoformat (t : datetime) : str :=
  let f := fields_of t in
  zpad 4 (year f) ++ lit "-" ++ zpad 2 (month f) ++ lit "-"
  ++ zpad 2 (day f) ++ lit "T" ++ zpad 2 (hour f) ++ lit ":"
  ++ zpad 2 (minute f) ++ lit ":" ++ zpad 2 (second f)
  ++ (if microsecond f =? 0 then []
      else lit "." ++ zpad 6 (microsecond f)).

(** Reading back the fields of a timestamp. *)
Fixpoint number (width : nat) (acc : Z) (s : str) : option (Z * str) :=
  match width with
  | O => Some (acc, s)
  | S w =>
      match s with
      | c :: r =>
          if ((48 <=? c) && (c <=? 57))%N
          then number w (acc * 10 + (Z.of_N c - 48)) r
          else None
      | [] => None
      end
  end.

Definition expect (c : N) (s : str) : option str :=
  match s with
  | x :: r => if N.eqb x c then Some r else None
  | [] => None
  end.

Definition bind_opt {A B} (o : option A) (k : A -> option B) : option B :=
  match o with Some a => k a | None => None end.

(** The fields of a string in the form the store writes,
    [YYYY-MM-DD HH:MM], each field zero-padded to its full width. *)
Definition scan_minute (s : str) : option fields :=
  bind_opt (number 4 0 s) (fun '(y, s) =>
  bind_opt (expect 45 s) (fun s =>
  bind_opt (number 2 0 s) (fun '(mo, s) =>
  bind_opt (expect 45 s) (fun s =>
  bind_opt (number 2 0 s) (fun '(d, s) =>
  bind_opt (expect 32 s) (fun s =>
  bind_opt (number 2 0 s) (fun '(h, s) =>
  bind_opt (expect 58 s) (fun s =>
  bind_opt (number 2 0 s) (fun '(mi, s) =>
  match s with
  | [] => Some (mk_fields y mo d h mi 0 0)
  | _ :: _ => None
  end))))))))).

Definition valid_fields (f : fields) : bool :=
  (1 <=? year f) && (1 <=? month f) && (month f <=? 12)
  && (1 <=? day f) && (day f <=? days_in_month (year f) (month f))
  && (hour f <=? 23) && (minute f <=? 59).

(** [datetime.strptime(s, "%Y-%m-%d %H:%M")], restricted to the strings
    of sixteen characters [YYYY-MM-DD HH:MM] with ASCII digits, every
    field at its full width.  On these it is Python's function.  Python
    reads more strings than these (fields without their leading zero, a
    run of whitespace for the blank, digits of other scripts): on those
    this definition raises where Python returns, so nothing below is
    concluded from a failure of this function. *)
Definition strptime_minute (s : str) : result datetime :=
  match scan_minute s with
  | Some f =>
      if valid_fields f then Ok (of_fields f)
      else Raise (TimeDataError s)
  | None => Raise (TimeDataError s)
  end.

(** [pd.Timedelta(days=days)], in microseconds.  pandas keeps a signed
    64-bit count of nanoseconds and refuses a span outside it; the
    exception it refuses with is rendered as [OverflowError]. *)
Definition Timedelta_days (days : Z) : result Z :=
  if Z.abs (days * US_PER_DAY * 1000) <=? 2 ^ 63 - 1
  then Ok (days * US_PER_DAY)
  else Raise OverflowError.

(** [t - delta]: the result has to be a [datetime] again. *)
Definition sub (t : datetime) (delta : Z) : result datetime :=
  let r := t - delta in
  if (0 <=? r) && (r <=? MAX) then Ok r else Raise OverflowError.

End PyTime.
Import PyTime.

(* ===================================================================== *)
(** ** src/sentiment.py: [SentimentAnalyzer] *)
(* ===================================================================== *)

Module Sentiment.

Definition Positive : str := lit "Positive".
Definition Negative : str := lit "Negative".
Definition Neutral : str := lit "Neutral".

(** The dictionary [analyze_sentiment] returns. *)
Record Analysis : Type := mk_analysis {
  sentiment : str;
  score : float
}.

(** Lines 35-40: the label of a compound score. *)
Definition classify (compound_score : float) : str :=
  if (0.05 <=? compound_score)%float then Positive
  else if (compound_score <=? -0.05)%float then Negative
  else Neutral.

Section Analyzer.

(** [self.analyzer.polarity_scores(text)['compound']]: the lexicon
    scorer (VADER), which is not part of this repository. *)
Variable polarity_scores : str -> float.

(** [analyze_sentiment(text)].  Next to the returned dictionary, the
    model records the texts handed to the scorer, in call order. *)
Definition analyze_sentiment (text : str) : Analysis * list str :=
  if negb (truthy text) || str_eqb (strip text) (lit "") then
    ({| sentiment := Neutral; score := 0.0%float |}, [])
  else
    let compound_score := polarity_scores text in
    ({| sentiment := classify compound_score;
        score := compound_score |}, [text]).

End Analyzer.

End Sentiment.

(* ===================================================================== *)
(** ** src/utils.py: [DataManager] *)
(* ===================================================================== *)

Module DataManager.

(** One journal entry, as [add_entry] builds it. *)
Record Entry : Type := mk_entry {
  timestamp : str;
  text : str;
  sentiment : str;
  score : float
}.

(** The journal dictionary.  [_load_data]'s fallback builds it without
    [last_updated]; [_save_data] sets that key before writing. *)
Record Journal : Type := mk_journal {
  entries : list Entry;
  created_at : str;
  last_updated : option str
}.

(** The backing file [journal_log.json]: absent; holding text that is not
    JSON (an empty or a cut-off file is one); holding bytes that are not
    UTF-8; or holding a journal.  [json.dump] followed by [json.load]
    gives back the journal that was written.  A file with JSON of another
    shape than a journal has no state here. *)
Inductive File : Type :=
| Missing
| Corrupt
| Undecodable
| Stored (j : Journal).

(** Every string of an entry, and of a journal, can be encoded. *)
Definition encodable_entry (e : Entry) : bool :=
  encodable (timestamp e) && encodable (text e) && encodable (sentiment e).

Definition encodable_journal (data : Journal) : bool :=
  forallb encodable_entry (entries data)
  && encodable (created_at data)
  && match last_updated data with
     | Some u => encodable u
     | None => true
     end.

(** The world an operation runs in: the file, and how many readings of
    the wall clock have been taken so far. *)
Record World : Type := mk_world {
  file : File;
  ticks : nat
}.

(** An operation returns or raises, and leaves a world behind. *)
Definition M (A : Type) : Type := World -> result A * World.

Definition ret {A} (a : A) : M A := fun w => (Ok a, w).

Definition raise {A} (e : exn) : M A := fun w => (Raise e, w).

Definition bind {A B} (m : M A) (k : A -> M B) : M B :=
  fun w =>
    match m w with
    | (Ok a, w') => k a w'
    | (Raise e, w') => (Raise e, w')
    end.

Definition lift {A} (r : result A) : M A := fun w => (r, w).

(** [try: body except <caught>: handler] *)
Definition try_except {A} (body : M A) (caught : exn -> bool)
    (handler : M A) : M A :=
  fun w =>
    match body w with
    | (Raise e, w') => if caught e then handler w' else (Raise e, w')
    | (Ok a, w') => (Ok a, w')
    end.

Notation "x <- m ;; k" := (bind m (fun x => k))
  (at level 61, m at next level, right associativity).
Notation "m ;;; k" := (bind m (fun _ => k))
  (at level 61, right associativity).

(** [open(self.data_file, 'r', encoding='utf-8')] and [json.load]. *)
Definition json_load : M Journal :=
  fun w =>
    match file w with
    | Missing => (Raise FileNotFoundError, w)
    | Corrupt => (Raise JSONDecodeError, w)
    | Undecodable => (Raise UnicodeDecodeError, w)
    | Stored j => (Ok j, w)
    end.

(** [open(self.data_file, 'w', encoding='utf-8')] and
    [json.dump(data, f, indent=2, ensure_ascii=False)].  Opening empties
    the file; the text is then written piece by piece, and a string that
    cannot be encoded stops the writing with an error, the file keeping
    the cut-off text written so far. *)
Definition json_dump (data : Journal) : M unit :=
  fun w =>
    if encodable_journal data
    then (Ok tt, {| file := Stored data; ticks := ticks w |})
    else (Raise UnicodeEncodeError, {| file := Corrupt; ticks := ticks w |}).

(** [self.data_file.exists()] *)
Definition exists_ : M bool :=
  fun w =>
    (Ok match file w with Missing => false | _ => true end, w).

(** Insertion-ordered dictionary of counts. *)
Fixpoint dict_get (d : list (str * Z)) (k : str) (default : Z) : Z :=
  match d with
  | [] => default
  | (k', v) :: r => if str_eqb k' k then v else dict_get r k default
  end.

Fixpoint dict_set (d : list (str * Z)) (k : str) (v : Z)
    : list (str * Z) :=
  match d with
  | [] => [(k, v)]
  | (k', v') :: r =>
      if str_eqb k' k then (k', v) :: r else (k', v') :: dict_set r k v
  end.

(** The dictionary [get_statistics] returns. *)
Record Statistics : Type := mk_statistics {
  total_entries : nat;
  sentiment_distribution : list (str * Z);
  average_score : float;
  best_day : option Entry;
  worst_day : option Entry
}.

(** [max(entries, key=lambda x: x["score"])]: the running best is
    replaced only by an item whose key is greater. *)
Definition max_by_score (entries : list Entry) : option Entry :=
  match entries with
  | [] => None
  | e :: rest =>
      Some (fold_left
              (fun best x =>
                 if (score best <? score x)%float then x else best)
              rest e)
  end.

(** [min(entries, key=lambda x: x["score"])] *)
Definition min_by_score (entries : list Entry) : option Entry :=
  match entries with
  | [] => None
  | e :: rest =>
      Some (fold_left
              (fun best x =>
                 if (score x <? score best)%float then x else best)
              rest e)
  end.

(** What [export_data] returns: the journal dictionary or CSV text. *)
Inductive Export : Type :=
| ExportJson (data : Journal)
| ExportCsv (csv : str).

Definition unsupported_format : exn :=
  ValueError (lit "Unsupported format. Use 'json' or 'csv'").

(** The loop of [get_recent_entries] (lines 138-141). *)
Fixpoint recent_loop (cutoff_date : datetime) (entries : list Entry)
    (recent_entries : list Entry) : result (list Entry) :=
  match entries with
  | [] => Ok recent_entries
  | entry :: rest =>
      match strptime_minute (timestamp entry) with
      | Raise e => Raise e
      | Ok entry_date =>
          if entry_date >=? cutoff_date
          then recent_loop cutoff_date rest (recent_entries ++ [entry])
          else recent_loop cutoff_date rest recent_entries
      end
  end.

(** pandas, which is not part of this repository: the frame type,
    [pd.DataFrame()], [pd.DataFrame(entries)] with its timestamp column
    converted by [pd.to_datetime] and its rows sorted by it, and
    [df.to_csv(index=False)].  The conversion and the rendering may
    raise. *)
Record Pandas : Type := mk_pandas {
  DataFrame : Type;
  pd_empty : DataFrame;
  pd_sorted_by_timestamp : list Entry -> result DataFrame;
  to_csv : DataFrame -> result str
}.

Section Manager.

(** [datetime.now()]: the [k]-th reading of the wall clock. *)
Variable clock : nat -> datetime.

(** The pandas library in use. *)
Variable pd : Pandas.

Definition datetime_now : M datetime :=
  fun w =>
    (Ok (clock (ticks w)), {| file := file w; ticks := S (ticks w) |}).

Definition _load_data : M Journal :=
  try_except json_load
    (fun e =>
       match e with
       | FileNotFoundError | JSONDecodeError => true
       | _ => false
       end)
    (now <- datetime_now ;;
     ret {| entries := []; created_at := isoformat now;
            last_updated := None |}).

Definition _save_data (data : Journal) : M unit :=
  now <- datetime_now ;;
  json_dump {| entries := entries data; created_at := created_at data;
               last_updated := Some (isoformat now) |}.

Definition _initialize_data_file : M unit :=
  present <- exists_ ;;
  if negb present then
    created <- datetime_now ;;
    updated <- datetime_now ;;
    _save_data {| entries := []; created_at := isoformat created;
                  last_updated := Some (isoformat updated) |}
  else ret tt.

Definition add_entry (text sentiment : str) (score : float) : M Entry :=
  data <- _load_data ;;
  now <- datetime_now ;;
  let entry := {| timestamp := strftime_minute now; text := text;
                  sentiment := sentiment; score := score |} in
  _save_data {| entries := entries data ++ [entry];
                created_at := created_at data;
                last_updated := last_updated data |} ;;;
  ret entry.

(** [data.get("entries", [])]: every journal [_load_data] returns
    holds the key, so the default is never taken. *)
Definition get_all_entries : M (list Entry) :=
  data <- _load_data ;;
  ret (entries data).

Definition get_entries_as_dataframe : M (DataFrame pd) :=
  entries <- get_all_entries ;;
  match entries with
  | [] => ret (pd_empty pd)
  | _ :: _ => lift (pd_sorted_by_timestamp pd entries)
  end.

Definition get_statistics : M Statistics :=
  entries <- get_all_entries ;;
  match entries with
  | [] =>
      ret {| total_entries := 0; sentiment_distribution := [];
             average_score := 0.0%float;
             best_day := None; worst_day := None |}
  | _ :: _ =>
      let sentiment_counts :=
        fold_left
          (fun counts entry =>
             dict_set counts (sentiment entry)
               (dict_get counts (sentiment entry) 0 + 1))
          entries [] in
      let scores := List.map score entries in
      let avg_score :=
        match scores with
        | [] => 0.0%float
        | _ :: _ =>
            (fold_left PrimFloat.add scores 0
             / of_uint63
                 (Uint63.of_Z (Z.of_nat (List.length scores))))%float
        end in
      ret {| total_entries := List.length entries;
             sentiment_distribution := sentiment_counts;
             average_score := avg_score;
             best_day := max_by_score entries;
             worst_day := min_by_score entries |}
  end.

Definition export_data (format : str) : M Export :=
  if str_eqb (lower format) (lit "json") then
    data <- _load_data ;;
    ret (ExportJson data)
  else if str_eqb (lower format) (lit "csv") then
    df <- get_entries_as_dataframe ;;
    csv <- lift (to_csv pd df) ;;
    ret (ExportCsv csv)
  else raise unsupported_format.

Definition clear_all_data : M unit :=
  created <- datetime_now ;;
  updated <- datetime_now ;;
  _save_data {| entries := []; created_at := isoformat created;
                last_updated := Some (isoformat updated) |}.

Definition get_recent_entries (days : Z) : M (list Entry) :=
  entries <- get_all_entries ;;
  match entries with
  | [] => ret []
  | _ :: _ =>
      now <- datetime_now ;;
      delta <- lift (Timedelta_days days) ;;
      cutoff_date <- lift (sub now delta) ;;
      lift (recent_loop cutoff_date entries [])
  end.

End Manager.

End DataManager.
Import DataManager.

(* ===================================================================== *)
(** ** src/app.py: the filters of the Journal History page *)
(* ===================================================================== *)

Module App.

(** Two scores read by [json.load] compared as values of a dictionary:
    the same object or [==].  [json.load] gives one and the same object
    for every [NaN] it reads, so two scores that are not numbers are
    equal here, though [==] alone says they are not. *)
Definition score_eqb (a b : float) : bool :=
  (a =? b)%float || (is_nan a && is_nan b).

(** [a == b] on two entry dictionaries read from the file: equal values
    under each key. *)
Definition entry_eqb (a b : Entry) : bool :=
  str_eqb (timestamp a) (timestamp b) && str_eqb (text a) (text b)
  && str_eqb (sentiment a) (sentiment b)
  && score_eqb (score a) (score b).

(** [e in recent_entries] *)
Definition contains (recent_entries : list Entry) (e : Entry) : bool :=
  existsb (fun x => entry_eqb x e) recent_entries.

Definition days_map : list (str * Z) :=
  [(lit "Last 7 days", 7); (lit "Last 30 days", 30);
   (lit "Last 90 days", 90)].

(** [days_map[key]] *)
Fixpoint subscript (d : list (str * Z)) (key : str) : result Z :=
  match d with
  | [] => Raise (KeyError key)
  | (k, v) :: r => if str_eqb k key then Ok v else subscript r key
  end.

Section Page.

Variable clock : nat -> datetime.

(** Lines 241-269: the entries the page shows for the two select
    boxes, before they are reversed for display. *)
Definition journal_history (sentiment_filter days_filter : str)
    : M (list Entry) :=
  entries <- get_all_entries clock ;;
  match entries with
  | [] => ret []
  | _ :: _ =>
      let filtered_entries := entries in
      let filtered_entries :=
        if negb (str_eqb sentiment_filter (lit "All")) then
          filter (fun e => str_eqb (sentiment e) sentiment_filter)
            filtered_entries
        else filtered_entries in
      if negb (str_eqb days_filter (lit "All time")) then
        days <- lift (subscript days_map days_filter) ;;
        recent_entries <- get_recent_entries clock days ;;
        ret (filter (fun e => contains recent_entries e)
               filtered_entries)
      else ret filtered_entries
  end.

End Page.

End App.

(* ===================================================================== *)
(** ** Vocabulary of the properties *)
(* ===================================================================== *)

(** The order of binary64 numbers, read off their representation. *)
Module FloatKey.

(** A value that is a number, placed in an ordered triple: its class,
    then its exponent, then its mantissa, each signed. *)
Definition key (f : spec_float) : option (Z * Z * Z) :=
  match f with
  | S754_nan => None
  | S754_infinity true => Some (-2, 0, 0)
  | S754_infinity false => Some (2, 0, 0)
  | S754_zero _ => Some (0, 0, 0)
  | S754_finite true m e => Some (-1, - e, Z.neg m)
  | S754_finite false m e => Some (1, e, Z.pos m)
  end.

Definition fkey (x : float) : option (Z * Z * Z) := key (Prim2SF x).

Definition lex_lt (a b : Z * Z * Z) : Prop :=
  let '(a1, a2, a3) := a in
  let '(b1, b2, b3) := b in
  a1 < b1 \/ (a1 = b1 /\ (a2 < b2 \/ (a2 = b2 /\ a3 < b3))).

Definition lex_eq (a b : Z * Z * Z) : Prop :=
  let '(a1, a2, a3) := a in
  let '(b1, b2, b3) := b in
  a1 = b1 /\ a2 = b2 /\ a3 = b3.

Definition rel (r : Z * Z * Z -> Z * Z * Z -> Prop) (x y : float)
    : Prop :=
  match fkey x, fkey y with
  | Some a, Some b => r a b
  | _, _ => False
  end.

End FloatKey.

Module Props.

(** A text that is empty or made of whitespace only. *)
Definition blank (text : str) : bool := forallb isspace text.

(** The keys present in a journal dictionary. *)
Definition keys (data : Journal) : list str :=
  [lit "entries"; lit "created_at"]
  ++ match last_updated data with
     | Some _ => [lit "last_updated"]
     | None => []
     end.

Definition has_key (data : Journal) (k : str) : bool :=
  existsb (str_eqb k) (keys data).

(** The entries a backing file holds; none when it is absent or
    unreadable. *)
Definition stored_entries (f : File) : list Entry :=
  match f with
  | Stored j => entries j
  | Missing | Corrupt | Undecodable => []
  end.

(** What was submitted with an entry. *)
Definition submitted (e : Entry) : str * str * float :=
  (text e, sentiment e, score e).

(** The score of an entry is a number. *)
Definition is_number (e : Entry) : Prop := is_nan (score e) = false.

(** Every score is a number. *)
Definition numeric (entries : list Entry) : Prop :=
  forall e, In e entries -> is_number e.

(** Every timestamp reads back in the format it was written in. *)
Definition well_stamped (entries : list Entry) : Prop :=
  forall e, In e entries -> exists t, strptime_minute (timestamp e) = Ok t.

(** The running choice of [max] and [min] under a strict order [lt]:
    the item kept is replaced only by a later one that is better. *)
Definition choose (lt : Entry -> Entry -> bool) (best x : Entry) : Entry :=
  if lt best x then x else best.

(** [e] is the first of the best entries, for a strict order [lt] and
    its large order [le]. *)
Definition first_best (lt le : Entry -> Entry -> bool)
    (entries : list Entry) (e : Entry) : Prop :=
  exists before after,
    entries = before ++ e :: after
    /\ (forall x, In x entries -> le x e = true)
    /\ (forall x, In x before -> lt x e = true).

(** [e] is the first entry of [entries] with the greatest score. *)
Definition first_max (entries : list Entry) (e : Entry) : Prop :=
  exists before after,
    entries = before ++ e :: after
    /\ (forall x, In x entries -> (score x <=? score e)%float = true)
    /\ (forall x, In x before -> (score x <? score e)%float = true).

(** [e] is the first entry of [entries] with the least score. *)
Definition first_min (entries : list Entry) (e : Entry) : Prop :=
  exists before after,
    entries = before ++ e :: after
    /\ (forall x, In x entries -> (score e <=? score x)%float = true)
    /\ (forall x, In x before -> (score e <? score x)%float = true).

(** The recency predicate of the specification:
    [timestamp >= now - days]. *)
Definition is_recent (now : datetime) (days : Z) (e : Entry) : bool :=
  match strptime_minute (timestamp e) with
  | Ok t => now - days * US_PER_DAY <=? t
  | Raise _ => false
  end.

(** The recency filter of the specification. *)
Definition filter_by_recency (now : datetime) (days : Z)
    (entries : list Entry) : list Entry :=
  filter (is_recent now days) entries.

(** The filter of the specification that tests label and date
    together. *)
Definition filter_direct (label : str) (now : datetime) (days : Z)
    (entries : list Entry) : list Entry :=
  filter (fun e => str_eqb (sentiment e) label && is_recent now days e)
    entries.

(** The day counts for which [now - pd.Timedelta(days=days)] exists. *)
Definition window_ok (now : datetime) (days : Z) : Prop :=
  Z.abs (days * US_PER_DAY * 1000) <= 2 ^ 63 - 1
  /\ 0 <= now - days * US_PER_DAY <= MAX.


(** The date of day [n] is a date of the first 400 years with ordinal
    [n]: the test run over one full cycle of the calendar. *)
Definition check_day (n : Z) : bool :=
  let '(y, m, d) := ord2ymd n in
  (1 <=? y) && (y <=? 400) && (1 <=? m) && (m <=? 12)
  && (1 <=? d) && (d <=? days_in_month y m) && (ymd2ord y m d =? n).

Fixpoint check_from (fuel : nat) (n : Z) : bool :=
  match fuel with
  | O => true
  | S f => check_day n && check_from f (n + 1)
  end.

(** 1000-01-01 00:00:00, from which on a year has four digits. *)
Definition Y1000 : datetime := (ymd2ord 1000 1 1 - 1) * US_PER_DAY.

(** Every reading of the clock is a [datetime] of the year 1000 or
    later. *)
Definition clock_modern (clock : nat -> datetime) : Prop :=
  forall k, Y1000 <= clock k <= MAX.

(** A file the store can read, all of whose strings it can write
    again. *)
Definition sound (f : File) : Prop :=
  match f with
  | Stored j => encodable_journal j = true
  | Missing | Corrupt => True
  | Undecodable => False
  end.

(** The strings of a call of [add_entry] can be encoded. *)
Definition encodable_call (c : str * str * float) : bool :=
  let '(text, sentiment, _) := c in
  encodable text && encodable sentiment.

Section Runs.

Variable clock : nat -> datetime.

(** A sequence of calls of [add_entry], with the entries returned. *)
Fixpoint add_entries (calls : list (str * str * float))
    : M (list Entry) :=
  match calls with
  | [] => ret []
  | (text, sentiment, score) :: rest =>
      e <- add_entry clock text sentiment score ;;
      es <- add_entries rest ;;
      ret (e :: es)
  end.

End Runs.

End Props.
Import Props.

(** A small journal and a clock, for the worked instances below. *)
Module Sample.

(** 2024-01-15 10:30:00, then one microsecond more at every reading. *)
Definition clock (k : nat) : datetime :=
  of_fields (mk_fields 2024 1 15 10 30 0 0) + Z.of_nat k.

Definition e_old : Entry :=
  {| timestamp := lit "2024-01-08 10:29"; text := lit "a long week";
     sentiment := Sentiment.Negative; score := (-0.6)%float |}.

Definition e_edge : Entry :=
  {| timestamp := lit "2024-01-08 10:30"; text := lit "a fine walk";
     sentiment := Sentiment.Positive; score := 0.8%float |}.

Definition e_new : Entry :=
  {| timestamp := lit "2024-01-14 09:00"; text := lit "went to the store";
     sentiment := Sentiment.Neutral; score := 0.0%float |}.

Definition e_tie : Entry :=
  {| timestamp := lit "2024-01-14 21:15"; text := lit "a good dinner";
     sentiment := Sentiment.Positive; score := 0.8%float |}.

Definition journal : Journal :=
  {| entries := [e_old; e_edge; e_new; e_tie];
     created_at := lit "2024-01-01T08:00:00";
     last_updated := Some (lit "2024-01-14T21:15:42.120000") |}.

Definition world : World := mk_world (Stored journal) 0.

(** A stand-in for pandas that renders nothing. *)
Definition pandas : Pandas :=
  {| DataFrame := unit; pd_empty := tt;
     pd_sorted_by_timestamp := fun _ => Ok tt;
     to_csv := fun _ => Ok [] |}.

Definition calls : list (str * str * float) :=
  [(lit "slept well", Sentiment.Positive, 0.5%float);
   (lit "  ", Sentiment.Neutral, 0.0%float)].

End Sample.

(* ===================================================================== *)
(** ** src/sentiment.py: the display tables; src/app.py: the pages *)
(* ===================================================================== *)

Module Pages.

(** [d.get(key, default)] on a dictionary literal. *)
Fixpoint dict_lookup (d : list (str * str)) (key default : str) : str :=
  match d with
  | [] => default
  | (k, v) :: r => if str_eqb k key then v else dict_lookup r key default
  end.

Definition GREEN : str := lit "#28a745".
Definition GRAY : str := lit "#6c757d".
Definition RED : str := lit "#dc3545".

(** The smiling, the neutral and the pensive face, one code point each. *)
Definition SMILING : str := [128522%N].
Definition NEUTRAL_FACE : str := [128528%N].
Definition PENSIVE : str := [128532%N].

(** [SentimentAnalyzer.get_sentiment_color] *)
Definition get_sentiment_color (sentiment : str) : str :=
  let colors :=
    [(Sentiment.Positive, GREEN); (Sentiment.Neutral, GRAY);
     (Sentiment.Negative, RED)] in
  dict_lookup colors sentiment GRAY.

(** [SentimentAnalyzer.get_sentiment_emoji] *)
Definition get_sentiment_emoji (sentiment : str) : str :=
  let emojis :=
    [(Sentiment.Positive, SMILING); (Sentiment.Neutral, NEUTRAL_FACE);
     (Sentiment.Negative, PENSIVE)] in
  dict_lookup emojis sentiment NEUTRAL_FACE.

(** What the New Entry page did with a run of its form. *)
Inductive Outcome : Type :=
| Saved (entry : Entry) (sentiment_result : Sentiment.Analysis)
| Asked
| Idle.

(** The excerpt of an entry on the Analytics page:
    [text[:100]] followed by ['...' if len(text) > 100 else '']. *)
Definition excerpt (text : str) : str :=
  firstn 100 text
  ++ (if (100 <? List.length text)%nat then lit "..." else []).

(** [stats["sentiment_distribution"].get("Positive", 0)] *)
Definition positive_count (stats : Statistics) : Z :=
  dict_get (sentiment_distribution stats) Sentiment.Positive 0.

(** [stats["sentiment_distribution"].get("Negative", 0)] *)
Definition negative_count (stats : Statistics) : Z :=
  dict_get (sentiment_distribution stats) Sentiment.Negative 0.


Section Forms.

Variable polarity_scores : str -> float.
Variable clock : nat -> datetime.

(** The form of the New Entry page (app.py lines 100-142): what it did,
    the world it left, and the texts it handed to the scorer. *)
Definition new_entry (submitted : bool) (entry_text : str) (w : World)
    : result Outcome * World * list str :=
  if submitted && truthy (strip entry_text) then
    let '(sentiment_result, scored) :=
      Sentiment.analyze_sentiment polarity_scores entry_text in
    match add_entry clock entry_text
            (Sentiment.sentiment sentiment_result)
            (Sentiment.score sentiment_result) w with
    | (Ok entry, w') => (Ok (Saved entry sentiment_result), w', scored)
    | (Raise e, w') => (Raise e, w', scored)
    end
  else if submitted && negb (truthy (strip entry_text)) then
    (Ok Asked, w, [])
  else (Ok Idle, w, []).

(** A session of the form: the texts submitted one after the other. *)
Fixpoint session (texts : list str) (w : World) : World :=
  match texts with
  | [] => w
  | t :: rest => session rest (snd (fst (new_entry true t w)))
  end.

End Forms.

End Pages.

(** Further vocabulary: counts, and the order of the labels. *)
Module Measures.

(** How many entries carry a label. *)
Definition count_label (label : str) (entries : list Entry) : Z :=
  Z.of_nat
    (List.length (filter (fun e => str_eqb (sentiment e) label) entries)).

(** The label of an entry is the one its score gets. *)
Definition labelled (e : Entry) : Prop :=
  sentiment e = Sentiment.classify (score e).

(** Negative below Neutral below Positive. *)
Definition rank (label : str) : Z :=
  if str_eqb label Sentiment.Positive then 1
  else if str_eqb label Sentiment.Negative then -1
  else 0.

(** Positive and Negative exchanged. *)
Definition mirror (label : str) : str :=
  if str_eqb label Sentiment.Positive then Sentiment.Negative
  else if str_eqb label Sentiment.Negative then Sentiment.Positive
  else label.

(** The opposite of a key of [FloatKey]. *)
Definition neg3 (a : Z * Z * Z) : Z * Z * Z :=
  let '(a1, a2, a3) := a in (- a1, - a2, - a3).

(** The step of the counting loop of [get_statistics]. *)
Definition tally (counts : list (str * Z)) (entry : Entry)
    : list (str * Z) :=
  dict_set counts (sentiment entry)
    (dict_get counts (sentiment entry) 0 + 1).

End Measures.

(** The calls a user of [DataManager] can make, and runs of them. *)
Module Calls.

Inductive Call : Type :=
| CallInit
| CallAdd (text sentiment : str) (score : float)
| CallList
| CallStats
| CallExport (format : str)
| CallRecent (days : Z)
| CallClear.

(** The strings a call hands to the store can be encoded. *)
Definition encodable_request (c : Call) : bool :=
  match c with
  | CallAdd text sentiment _ => encodable text && encodable sentiment
  | _ => true
  end.

(** A backing file that holds a journal with its three keys. *)
Definition complete (f : File) : Prop :=
  exists j u, f = Stored j /\ last_updated j = Some u.

Section Running.

Variable clock : nat -> datetime.
Variable pd : Pandas.

(** The world a call leaves, whether it returns or raises. *)
Definition call (c : Call) (w : World) : World :=
  match c with
  | CallInit => snd (_initialize_data_file clock w)
  | CallAdd text sentiment score =>
      snd (add_entry clock text sentiment score w)
  | CallList => snd (get_all_entries clock w)
  | CallStats => snd (get_statistics clock w)
  | CallExport format => snd (export_data clock pd format w)
  | CallRecent days => snd (get_recent_entries clock days w)
  | CallClear => snd (clear_all_data clock w)
  end.

Definition run (cs : list Call) (w : World) : World :=
  fold_left (fun w c => call c w) cs w.

End Running.

End Calls.

(** A clock that stops: 2024-01-15 10:30:00 and a second more at each of
    the first hundred readings. *)
Module Demo.

Definition clock (k : nat) : datetime :=
  of_fields (mk_fields 2024 1 15 10 30 0 0)
  + Z.of_nat (Nat.min k 100) * US_PER_SECOND.

Definition scorer (text : str) : float :=
  if str_eqb text (lit "a wonderful day") then 0.6%float
  else if str_eqb text (lit "a terrible day") then (-0.5)%float
  else 0.0%float.

(** An entry whose timestamp is not in the format of the store. *)
Definition e_bad : Entry :=
  {| timestamp := lit "yesterday"; text := lit "typed by hand";
     sentiment := Sentiment.Neutral; score := 0.0%float |}.

Definition broken : Journal :=
  {| entries := [Sample.e_edge; e_bad; Sample.e_new];
     created_at := lit "2024-01-01T08:00:00";
     last_updated := Some (lit "2024-01-14T09:00:03") |}.

(** An entry whose score is not a number. *)
Definition e_nan : Entry :=
  {| timestamp := lit "2024-01-14 09:00"; text := lit "no words";
     sentiment := Sentiment.Neutral; score := nan |}.

Definition odd : Journal :=
  {| entries := [e_nan; Sample.e_new];
     created_at := lit "2024-01-01T08:00:00";
     last_updated := Some (lit "2024-01-14T09:00:03") |}.

End Demo.

(* ===================================================================== *)
(** ** The order of binary64 numbers *)
(* ===================================================================== *)

Module FloatOrder.
Import FloatKey.

Lemma SFcompare_key (a b : spec_float) :
  match key a, key b with
  | Some x, Some y =>
      match SFcompare a b with
      | Some Lt => lex_lt x y
      | Some Eq => lex_eq x y
      | Some Gt => lex_lt y x
      | None => False
      end
  | _, _ => SFcompare a b = None
  end.
Proof.
  destruct a as [sa|sa| |sa ma ea], b as [sb|sb| |sb mb eb];
    try destruct sa; try destruct sb; simpl; try reflexivity; try lia.
  - destruct (Z.compare_spec ea eb); try lia.
    rewrite Pos.compare_cont_spec. simpl.
    destruct (Pos.compare_spec ma mb); simpl; lia.
  - destruct (Z.compare_spec ea eb); try lia.
    rewrite Pos.compare_cont_spec. simpl.
    destruct (Pos.compare_spec ma mb); simpl; lia.
Qed.

Lemma ltb_rel (x y : float) : (x <? y)%float = true <-> rel lex_lt x y.
Proof.
  rewrite ltb_spec. unfold SFltb, rel, fkey.
  pose proof (SFcompare_key (Prim2SF x) (Prim2SF y)) as H.
  destruct (key (Prim2SF x)) as [[[a1 a2] a3]|],
           (key (Prim2SF y)) as [[[b1 b2] b3]|];
    try (rewrite H; intuition discriminate).
  destruct (SFcompare (Prim2SF x) (Prim2SF y)) as [[]|]; simpl in *;
    intuition (try discriminate; try lia).
Qed.

Lemma leb_rel (x y : float) :
  (x <=? y)%float = true <-> rel (fun a b => lex_lt a b \/ lex_eq a b) x y.
Proof.
  rewrite leb_spec. unfold SFleb, rel, fkey.
  pose proof (SFcompare_key (Prim2SF x) (Prim2SF y)) as H.
  destruct (key (Prim2SF x)) as [[[a1 a2] a3]|],
           (key (Prim2SF y)) as [[[b1 b2] b3]|];
    try (rewrite H; intuition discriminate).
  destruct (SFcompare (Prim2SF x) (Prim2SF y)) as [[]|]; simpl in *;
    intuition (try discriminate; try lia).
Qed.

Lemma eqb_rel (x y : float) : (x =? y)%float = true <-> rel lex_eq x y.
Proof.
  rewrite FloatAxioms.eqb_spec. unfold SFeqb, rel, fkey.
  pose proof (SFcompare_key (Prim2SF x) (Prim2SF y)) as H.
  destruct (key (Prim2SF x)) as [[[a1 a2] a3]|],
           (key (Prim2SF y)) as [[[b1 b2] b3]|];
    try (rewrite H; intuition discriminate).
  destruct (SFcompare (Prim2SF x) (Prim2SF y)) as [[]|]; simpl in *;
    intuition (try discriminate; try lia).
Qed.

Lemma is_nan_key (x : float) : is_nan x = false <-> fkey x <> None.
Proof.
  unfold is_nan. rewrite FloatAxioms.eqb_spec. unfold SFeqb, fkey.
  pose proof (SFcompare_key (Prim2SF x) (Prim2SF x)) as H.
  destruct (key (Prim2SF x)) as [[[a1 a2] a3]|].
  - destruct (SFcompare (Prim2SF x) (Prim2SF x)) as [[]|]; simpl in *;
      intuition (try discriminate; try lia).
  - rewrite H. simpl. intuition discriminate.
Qed.

Ltac by_keys :=
  repeat match goal with
    | H : is_nan _ = false |- _ => apply is_nan_key in H
    | H : (_ <? _)%float = true |- _ => apply ltb_rel in H
    | H : (_ <=? _)%float = true |- _ => apply leb_rel in H
    | H : (_ =? _)%float = true |- _ => apply eqb_rel in H
    | H : (_ <? _)%float = false |- _ =>
        apply not_true_iff_false in H; rewrite ltb_rel in H
    | H : (_ <=? _)%float = false |- _ =>
        apply not_true_iff_false in H; rewrite leb_rel in H
    | |- (_ <? _)%float = true => apply ltb_rel
    | |- (_ <=? _)%float = true => apply leb_rel
    | |- (_ <? _)%float = false =>
        apply not_true_iff_false; rewrite ltb_rel
    | |- (_ <=? _)%float = false =>
        apply not_true_iff_false; rewrite leb_rel
    end;
  unfold rel, lex_lt, lex_eq in *;
  repeat match goal with
    | |- context [fkey ?x] => destruct (fkey x) as [[[? ?] ?]|]
    | H : context [fkey ?x] |- _ => destruct (fkey x) as [[[? ?] ?]|]
    end;
  try tauto; try congruence; try lia.

Lemma leb_refl (x : float) : is_nan x = false -> (x <=? x)%float = true.
Proof. intros. by_keys. Qed.

Lemma leb_trans (x y z : float) :
  (x <=? y)%float = true -> (y <=? z)%float = true ->
  (x <=? z)%float = true.
Proof. intros. by_keys. Qed.

Lemma ltb_leb_trans (x y z : float) :
  (x <? y)%float = true -> (y <=? z)%float = true ->
  (x <? z)%float = true.
Proof. intros. by_keys. Qed.

Lemma leb_ltb_trans (x y z : float) :
  (x <=? y)%float = true -> (y <? z)%float = true ->
  (x <? z)%float = true.
Proof. intros. by_keys. Qed.

Lemma ltb_leb (x y : float) :
  (x <? y)%float = true -> (x <=? y)%float = true.
Proof. intros. by_keys. Qed.

Lemma not_ltb_leb (x y : float) :
  is_nan x = false -> is_nan y = false ->
  (x <? y)%float = false -> (y <=? x)%float = true.
Proof. intros. by_keys. Qed.

Lemma leb_not_ltb (x y : float) :
  (x <=? y)%float = true -> (y <? x)%float = false.
Proof. intros. by_keys. Qed.

Lemma not_leb_ltb (x y : float) :
  is_nan x = false -> is_nan y = false ->
  (x <=? y)%float = false -> (y <? x)%float = true.
Proof. intros. by_keys. Qed.

Lemma ltb_not_leb (x y : float) :
  (x <? y)%float = true -> (y <=? x)%float = false.
Proof. intros. by_keys. Qed.

Lemma eqb_not_ltb (x y : float) :
  (x =? y)%float = true -> (y <? x)%float = false.
Proof. intros. by_keys. Qed.

Lemma eqb_not_gtb (x y : float) :
  (x =? y)%float = true -> (x <? y)%float = false.
Proof. intros. by_keys. Qed.

Lemma eqb_refl (x : float) : is_nan x = false -> (x =? x)%float = true.
Proof. unfold is_nan. intros H. apply negb_false_iff in H. exact H. Qed.

End FloatOrder.

(* ===================================================================== *)
(** ** Strings *)
(* ===================================================================== *)

Lemma str_eqb_eq (a b : str) : str_eqb a b = true <-> a = b.
Proof.
  revert b. induction a as [|x a IH]; intros [|y b]; simpl;
    try (split; [discriminate | discriminate]); [tauto|].
  rewrite andb_true_iff, N.eqb_eq, IH.
  split; [intros [-> ->]; reflexivity | intros [= -> ->]; auto].
Qed.

Lemma str_eqb_refl (a : str) : str_eqb a a = true.
Proof. apply str_eqb_eq. reflexivity. Qed.

Lemma str_eqb_neq (a b : str) : str_eqb a b = false <-> a <> b.
Proof.
  rewrite <- str_eqb_eq. destruct (str_eqb a b); split; congruence.
Qed.

Lemma lstrip_nil (s : str) : lstrip s = [] <-> blank s = true.
Proof.
  unfold blank. induction s as [|c s IH]; simpl; [tauto|].
  destruct (isspace c); simpl; [exact IH|].
  split; discriminate.
Qed.

Lemma lstrip_snoc_solid (s : str) (c : N) :
  isspace c = false -> lstrip (s ++ [c]) <> [].
Proof.
  intros Hc. induction s as [|x s IH]; simpl.
  - rewrite Hc. discriminate.
  - destruct (isspace x); [exact IH | discriminate].
Qed.

Lemma lstrip_head (s : str) :
  match lstrip s with [] => True | c :: _ => isspace c = false end.
Proof.
  induction s as [|x s IH]; simpl; [exact I|].
  destruct (isspace x) eqn:E; [exact IH | exact E].
Qed.

Lemma strip_nil (s : str) : strip s = [] <-> blank s = true.
Proof.
  rewrite <- lstrip_nil. unfold strip, rstrip.
  pose proof (lstrip_head s) as Hh.
  destruct (lstrip s) as [|c r]; [simpl; tauto|].
  split; [|discriminate].
  intros H. exfalso.
  assert (Hl : lstrip (rev (c :: r)) = []).
  { destruct (lstrip (rev (c :: r))) as [|y l]; [reflexivity|].
    simpl in H. destruct (rev l); discriminate. }
  apply lstrip_nil in Hl. unfold blank in Hl.
  rewrite forallb_forall in Hl.
  specialize (Hl c). rewrite Hl in Hh; [discriminate|].
  apply in_rev. rewrite rev_involutive. left. reflexivity.
Qed.

(** The guard of [analyze_sentiment] holds of the blank texts. *)
Lemma guard_blank (text : str) :
  negb (truthy text) || str_eqb (strip text) (lit "") = blank text.
Proof.
  destruct (blank text) eqn:B.
  - apply strip_nil in B. rewrite B. apply orb_true_r.
  - assert (Hs : strip text <> []) by (rewrite strip_nil; congruence).
    destruct text as [|c r]; [discriminate|]. simpl negb. simpl orb.
    apply str_eqb_neq. exact Hs.
Qed.

Lemma encodable_app (a b : str) :
  encodable (a ++ b) = encodable a && encodable b.
Proof. apply forallb_app. Qed.

Lemma digit_utf8 (n : Z) : utf8_char (digit n) = true.
Proof.
  unfold utf8_char, digit. apply orb_true_iff. left. apply N.ltb_lt.
  pose proof (Z.mod_pos_bound n 10 eq_refl). lia.
Qed.

Lemma zpad_encodable (w : nat) (n : Z) : encodable (zpad w n) = true.
Proof.
  revert n. induction w as [|w IH]; intros n; [reflexivity|].
  cbn [zpad]. rewrite encodable_app, IH. cbn [encodable forallb andb].
  rewrite digit_utf8. reflexivity.
Qed.

Lemma year_digits_encodable (y : Z) : encodable (year_digits y) = true.
Proof.
  unfold year_digits.
  destruct (y <? 10); [apply zpad_encodable|].
  destruct (y <? 100); [apply zpad_encodable|].
  destruct (y <? 1000); apply zpad_encodable.
Qed.

(** What the store writes of a clock reading can be encoded. *)
Lemma strftime_encodable (t : datetime) :
  encodable (strftime_minute t) = true.
Proof.
  unfold strftime_minute. generalize (fields_of t). intros f.
  rewrite !encodable_app, year_digits_encodable, !zpad_encodable.
  reflexivity.
Qed.

Lemma isoformat_encodable (t : datetime) : encodable (isoformat t) = true.
Proof.
  unfold isoformat. generalize (fields_of t). intros f.
  rewrite !encodable_app, !zpad_encodable.
  destruct (microsecond f =? 0); [reflexivity|].
  rewrite encodable_app, zpad_encodable. reflexivity.
Qed.

(* ===================================================================== *)
(** ** The sentiment classifier *)
(* ===================================================================== *)

Section Classifier.

Import Sentiment.

Lemma labels_distinct :
  Positive <> Negative /\ Positive <> Neutral /\ Negative <> Neutral.
Proof. repeat split; discriminate. Qed.

Lemma thresholds_apart (s : float) :
  (0.05 <=? s)%float = true -> (s <=? -0.05)%float = false.
Proof.
  intros H. destruct (s <=? -0.05)%float eqn:E; [|reflexivity].
  pose proof (FloatOrder.leb_trans _ _ _ H E) as C.
  vm_compute in C. discriminate.
Qed.

Lemma classify_Positive (s : float) :
  classify s = Positive <-> (0.05 <=? s)%float = true.
Proof.
  unfold classify.
  destruct (0.05 <=? s)%float; [tauto|].
  destruct (s <=? -0.05)%float; split; discriminate.
Qed.

Lemma classify_Negative (s : float) :
  classify s = Negative <-> (s <=? -0.05)%float = true.
Proof.
  unfold classify.
  destruct (0.05 <=? s)%float eqn:P.
  - rewrite (thresholds_apart s P). split; discriminate.
  - destruct (s <=? -0.05)%float; [tauto|]. split; discriminate.
Qed.

Lemma classify_Neutral (s : float) :
  classify s = Neutral
  <-> (0.05 <=? s)%float = false /\ (s <=? -0.05)%float = false.
Proof.
  unfold classify.
  destruct (0.05 <=? s)%float.
  - split; [discriminate | intros [? _]; discriminate].
  - destruct (s <=? -0.05)%float.
    + split; [discriminate | intros [_ ?]; discriminate].
    + tauto.
Qed.

Lemma between_thresholds (s : float) :
  is_nan s = false ->
  ((0.05 <=? s)%float = false /\ (s <=? -0.05)%float = false
   <-> (-0.05 <? s)%float = true /\ (s <? 0.05)%float = true).
Proof.
  intros N.
  assert (N1 : is_nan 0.05 = false) by reflexivity.
  assert (N2 : is_nan (-0.05) = false) by reflexivity.
  split; intros [A B]; split.
  - apply FloatOrder.not_leb_ltb; assumption.
  - apply FloatOrder.not_leb_ltb; assumption.
  - apply FloatOrder.ltb_not_leb; assumption.
  - apply FloatOrder.ltb_not_leb; assumption.
Qed.

Variable polarity_scores : str -> float.

Lemma analyze_sentiment_cases (text : str) :
  analyze_sentiment polarity_scores text
  = if blank text
    then ({| sentiment := Neutral; score := 0.0%float |}, [])
    else ({| sentiment := classify (polarity_scores text);
             score := polarity_scores text |}, [text]).
Proof. unfold analyze_sentiment. rewrite guard_blank. reflexivity. Qed.

Lemma analyze_sentiment_label (text : str) :
  let r := fst (analyze_sentiment polarity_scores text) in
  sentiment r = classify (score r).
Proof.
  rewrite analyze_sentiment_cases. destruct (blank text); reflexivity.
Qed.

(** C7: a text that is empty or made of whitespace only is labelled
    Neutral with score 0.0, and the polarity scorer is not called: no
    text is handed to it. *)
Theorem analyze_sentiment_blank (text : str) :
  blank text = true ->
  analyze_sentiment polarity_scores text
  = ({| sentiment := Neutral; score := 0.0%float |}, []).
Proof. intros B. rewrite analyze_sentiment_cases, B. reflexivity. Qed.

(** C1: the label returned with a compound score [s] is Positive
    exactly when [s >= 0.05], Negative exactly when [s <= -0.05] and
    Neutral exactly when neither holds, which for a number means
    [-0.05 < s < 0.05]; [s] is the scorer's value for every text that
    reaches the scorer.  The bounds are exact: 0.05 is Positive,
    0.0499999 and the float just below 0.05 are Neutral. *)
Theorem analyze_sentiment_thresholds (text : str) :
  let r := fst (analyze_sentiment polarity_scores text) in
  let s := score r in
  (blank text = false -> s = polarity_scores text)
  /\ (sentiment r = Positive <-> (0.05 <=? s)%float = true)
  /\ (sentiment r = Negative <-> (s <=? -0.05)%float = true)
  /\ (sentiment r = Neutral
      <-> (0.05 <=? s)%float = false /\ (s <=? -0.05)%float = false)
  /\ (is_nan s = false ->
      (sentiment r = Neutral
       <-> (-0.05 <? s)%float = true /\ (s <? 0.05)%float = true))
  /\ classify 0.05 = Positive
  /\ classify 0.0499999 = Neutral
  /\ classify (next_down 0.05) = Neutral
  /\ classify (-0.05) = Negative
  /\ classify (next_up (-0.05)) = Neutral.
Proof.
  intros r s. pose proof (analyze_sentiment_label text) as L.
  fold r in L. cbv zeta in L. fold s in L. rewrite L.
  split; [|split; [|split; [|split; [|split]]]].
  - subst s r. rewrite analyze_sentiment_cases. intros ->. reflexivity.
  - apply classify_Positive.
  - apply classify_Negative.
  - apply classify_Neutral.
  - intros N. rewrite <- (between_thresholds s N). apply classify_Neutral.
  - repeat split; reflexivity.
Qed.

End Classifier.

Lemma analyze_sentiment_blank_witness :
  blank (lit "   ") = true
  /\ Sentiment.analyze_sentiment (fun _ => 0.9%float) (lit "   ")
     = ({| Sentiment.sentiment := Sentiment.Neutral;
           Sentiment.score := 0.0%float |}, []).
Proof.
  split; [reflexivity|].
  apply (analyze_sentiment_blank (fun _ => 0.9%float) (lit "   ")).
  reflexivity.
Defined.

Lemma analyze_sentiment_thresholds_witness :
  blank (lit "fine") = false
  /\ Sentiment.score
       (fst (Sentiment.analyze_sentiment (fun _ => 0.05%float) (lit "fine")))
     = 0.05%float.
Proof.
  split; [reflexivity|].
  apply (analyze_sentiment_thresholds (fun _ => 0.05%float) (lit "fine")).
  reflexivity.
Defined.

(* ===================================================================== *)
(** ** The entry store *)
(* ===================================================================== *)

Section Store.

Variable clock : nat -> datetime.

Lemma load_stored (j : Journal) (k : nat) :
  _load_data clock (mk_world (Stored j) k) = (Ok j, mk_world (Stored j) k).
Proof. reflexivity. Qed.

Lemma load_fallback (w : World) :
  file w = Missing \/ file w = Corrupt ->
  _load_data clock w
  = (Ok {| entries := []; created_at := isoformat (clock (ticks w));
           last_updated := None |},
     mk_world (file w) (S (ticks w))).
Proof.
  destruct w as [f k]. cbn [file ticks].
  intros [-> | ->]; reflexivity.
Qed.

Lemma load_undecodable (k : nat) :
  _load_data clock (mk_world Undecodable k)
  = (Raise UnicodeDecodeError, mk_world Undecodable k).
Proof. reflexivity. Qed.

Lemma get_all_entries_value (w : World) :
  file w <> Undecodable ->
  fst (get_all_entries clock w) = Ok (stored_entries (file w)).
Proof.
  destruct w as [[| | |j] k]; intros H; try reflexivity.
  exfalso. apply H. reflexivity.
Qed.

(** A listing that returns has read the file. *)
Lemma get_all_entries_ok (w : World) (all : list Entry) :
  fst (get_all_entries clock w) = Ok all ->
  file w <> Undecodable /\ all = stored_entries (file w).
Proof.
  destruct w as [[| | |j] k]; cbn; intros [= <-]; split;
    (discriminate || reflexivity).
Qed.

Lemma get_all_entries_file (w : World) :
  file (snd (get_all_entries clock w)) = file w.
Proof. destruct w as [[| | |j] k]; reflexivity. Qed.

Lemma get_all_entries_stored (j : Journal) (k : nat) :
  get_all_entries clock (mk_world (Stored j) k)
  = (Ok (entries j), mk_world (Stored j) k).
Proof. reflexivity. Qed.

(** On a missing file and on one that holds text that is not JSON,
    [get_all_entries] returns the empty list and leaves the file. *)
Lemma get_all_entries_unreadable (w : World) :
  file w = Missing \/ file w = Corrupt ->
  fst (get_all_entries clock w) = Ok []
  /\ file (snd (get_all_entries clock w)) = file w.
Proof.
  intros H. split; [|apply get_all_entries_file].
  destruct w as [f k]. cbn [file] in H. destruct H as [-> | ->]; reflexivity.
Qed.

(** C6: on a missing file and on one whose text is not JSON,
    [get_all_entries] returns the empty list; on a file whose bytes are
    not UTF-8, [json.load] raises [UnicodeDecodeError], which the
    handler of [_load_data] does not name, so [get_all_entries] raises
    it instead of returning the empty list. *)
Theorem get_all_entries_undecodable (k : nat) :
  fst (get_all_entries clock (mk_world Missing k)) = Ok []
  /\ fst (get_all_entries clock (mk_world Corrupt k)) = Ok []
  /\ get_all_entries clock (mk_world Undecodable k)
     = (Raise UnicodeDecodeError, mk_world Undecodable k).
Proof. repeat split. Qed.

(** What [_save_data] does, by whether the journal can be encoded. *)
Lemma save_data_ok (es : list Entry) (c : str) (u : option str)
    (f : File) (k : nat) :
  forallb encodable_entry es = true -> encodable c = true ->
  _save_data clock {| entries := es; created_at := c; last_updated := u |}
    (mk_world f k)
  = (Ok tt,
     mk_world (Stored {| entries := es; created_at := c;
                         last_updated := Some (isoformat (clock k)) |})
       (S k)).
Proof.
  intros He Hc. unfold _save_data, bind, datetime_now, json_dump.
  cbn [file ticks entries created_at].
  unfold encodable_journal. cbn [entries created_at last_updated].
  rewrite He, Hc, isoformat_encodable. reflexivity.
Qed.

Lemma save_data_fails (es : list Entry) (c : str) (u : option str)
    (f : File) (k : nat) :
  forallb encodable_entry es && encodable c = false ->
  _save_data clock {| entries := es; created_at := c; last_updated := u |}
    (mk_world f k)
  = (Raise UnicodeEncodeError, mk_world Corrupt (S k)).
Proof.
  intros H. unfold _save_data, bind, datetime_now, json_dump.
  cbn [file ticks entries created_at].
  unfold encodable_journal. cbn [entries created_at last_updated].
  rewrite H. reflexivity.
Qed.

Lemma new_entry_encodable (t : datetime) (text sentiment : str)
    (score : float) :
  encodable text = true -> encodable sentiment = true ->
  encodable_entry {| timestamp := strftime_minute t; text := text;
                     sentiment := sentiment; score := score |} = true.
Proof.
  intros Ht Hs. unfold encodable_entry. cbn [timestamp DataManager.text
    DataManager.sentiment].
  rewrite strftime_encodable, Ht, Hs. reflexivity.
Qed.

(** [add_entry] unfolded to its load and its save. *)
Lemma add_entry_stored (text sentiment : str) (score : float)
    (j : Journal) (k : nat) :
  add_entry clock text sentiment score (mk_world (Stored j) k)
  = let e := {| timestamp := strftime_minute (clock k); text := text;
                sentiment := sentiment; score := score |} in
    match _save_data clock {| entries := entries j ++ [e];
                              created_at := created_at j;
                              last_updated := last_updated j |}
            (mk_world (Stored j) (S k)) with
    | (Ok _, w') => (Ok e, w')
    | (Raise x, w') => (Raise x, w')
    end.
Proof.
  unfold add_entry, bind at 1. rewrite load_stored.
  unfold bind at 1, datetime_now at 1. cbn [file ticks].
  cbv zeta. unfold bind at 1.
  destruct (_save_data clock _ _) as [[[]|x] w']; reflexivity.
Qed.

Lemma add_entry_fallback (text sentiment : str) (score : float)
    (f : File) (k : nat) :
  f = Missing \/ f = Corrupt ->
  add_entry clock text sentiment score (mk_world f k)
  = let e := {| timestamp := strftime_minute (clock (S k)); text := text;
                sentiment := sentiment; score := score |} in
    match _save_data clock {| entries := [e];
                              created_at := isoformat (clock k);
                              last_updated := None |}
            (mk_world f (S (S k))) with
    | (Ok _, w') => (Ok e, w')
    | (Raise x, w') => (Raise x, w')
    end.
Proof.
  intros Hf. unfold add_entry, bind at 1.
  rewrite (load_fallback (mk_world f k) Hf). cbn [file ticks].
  unfold bind at 1, datetime_now at 1. cbn [file ticks entries created_at
    last_updated app].
  cbv zeta. unfold bind at 1.
  destruct (_save_data clock _ _) as [[[]|x] w']; reflexivity.
Qed.

(** The first write into a new journal, by whether the new entry can
    be encoded. *)
Lemma fallback_written (text sentiment : str) (score : float) (f : File)
    (k : nat) :
  let e := {| timestamp := strftime_minute (clock (S k)); text := text;
              sentiment := sentiment; score := score |} in
  let data := {| entries := [e]; created_at := isoformat (clock k);
                 last_updated := Some (isoformat (clock (S (S k)))) |} in
  let r :=
    match _save_data clock {| entries := [e];
                              created_at := isoformat (clock k);
                              last_updated := None |}
            (mk_world f (S (S k))) with
    | (Ok _, w') => (Ok e, w')
    | (Raise x, w') => (Raise x, w')
    end in
  if encodable text && encodable sentiment
  then fst r = Ok e /\ file (snd r) = Stored data
  else fst r = Raise UnicodeEncodeError /\ file (snd r) = Corrupt.
Proof.
  cbv zeta. unfold _save_data, bind, datetime_now, json_dump.
  cbn [file ticks entries created_at last_updated].
  unfold encodable_journal, encodable_entry.
  cbn [entries created_at last_updated forallb timestamp
       DataManager.text DataManager.sentiment].
  rewrite strftime_encodable, !isoformat_encodable.
  cbn [andb]. rewrite !andb_true_r.
  destruct (encodable text && encodable sentiment); split; reflexivity.
Qed.

(** A call of [add_entry] that returns has read a clock, stored the
    entry behind those listed before, and left a journal. *)
Lemma add_entry_returned (text sentiment : str) (score : float)
    (w : World) (e : Entry) :
  fst (add_entry clock text sentiment score w) = Ok e ->
  exists k j,
    add_entry clock text sentiment score w
    = (Ok e, mk_world (Stored j) (S (S k)))
    /\ e = {| timestamp := strftime_minute (clock k); text := text;
              sentiment := sentiment; score := score |}
    /\ entries j = stored_entries (file w) ++ [e]
    /\ encodable_journal j = true.
Proof.
  destruct w as [[| | |j] k].
  - rewrite (add_entry_fallback _ _ _ Missing k (or_introl eq_refl)).
    cbv zeta. unfold _save_data, bind, datetime_now, json_dump.
    cbn [file ticks entries created_at last_updated].
    destruct (encodable_journal _) eqn:E; cbn [fst]; [|discriminate].
    intros [= <-]. exists (S k). eexists.
    split; [reflexivity|]. split; [reflexivity|].
    split; [reflexivity | exact E].
  - rewrite (add_entry_fallback _ _ _ Corrupt k (or_intror eq_refl)).
    cbv zeta. unfold _save_data, bind, datetime_now, json_dump.
    cbn [file ticks entries created_at last_updated].
    destruct (encodable_journal _) eqn:E; cbn [fst]; [|discriminate].
    intros [= <-]. exists (S k). eexists.
    split; [reflexivity|]. split; [reflexivity|].
    split; [reflexivity | exact E].
  - cbn. discriminate.
  - rewrite add_entry_stored.
    cbv zeta. unfold _save_data, bind, datetime_now, json_dump.
    cbn [file ticks entries created_at last_updated].
    destruct (encodable_journal _) eqn:E; cbn [fst]; [|discriminate].
    intros [= <-]. exists k. eexists.
    split; [reflexivity|]. split; [reflexivity|].
    split; [reflexivity | exact E].
Qed.

(** A call of [add_entry] that raises has left the world as it was, or
    the file cut off. *)
Lemma add_entry_raised (text sentiment : str) (score : float)
    (w : World) (x : exn) :
  fst (add_entry clock text sentiment score w) = Raise x ->
  snd (add_entry clock text sentiment score w) = w
  \/ file (snd (add_entry clock text sentiment score w)) = Corrupt.
Proof.
  destruct w as [[| | |j] k].
  - rewrite (add_entry_fallback _ _ _ Missing k (or_introl eq_refl)).
    cbv zeta. unfold _save_data, bind, datetime_now, json_dump.
    cbn [file ticks entries created_at last_updated].
    destruct (encodable_journal _); cbn [fst snd file];
      [discriminate | right; reflexivity].
  - rewrite (add_entry_fallback _ _ _ Corrupt k (or_intror eq_refl)).
    cbv zeta. unfold _save_data, bind, datetime_now, json_dump.
    cbn [file ticks entries created_at last_updated].
    destruct (encodable_journal _); cbn [fst snd file];
      [discriminate | right; reflexivity].
  - left. reflexivity.
  - rewrite add_entry_stored.
    cbv zeta. unfold _save_data, bind, datetime_now, json_dump.
    cbn [file ticks entries created_at last_updated].
    destruct (encodable_journal _); cbn [fst snd file];
      [discriminate | right; reflexivity].
Qed.

(** One call of [add_entry] on a store it can read and write. *)
Lemma add_entry_step (text sentiment : str) (score : float) (w : World) :
  sound (file w) ->
  encodable text = true -> encodable sentiment = true ->
  exists e w',
    add_entry clock text sentiment score w = (Ok e, w')
    /\ submitted e = (text, sentiment, score)
    /\ (exists k, timestamp e = strftime_minute (clock k))
    /\ stored_entries (file w') = stored_entries (file w) ++ [e]
    /\ sound (file w').
Proof.
  intros Hs Ht Hl. destruct w as [f k]. cbn [file] in Hs.
  pose proof (new_entry_encodable) as Hnew.
  destruct f as [| | |j]; cbn [sound] in Hs; [| |destruct Hs|].
  - rewrite (add_entry_fallback _ _ _ Missing k (or_introl eq_refl)).
    cbv zeta. rewrite save_data_ok;
      [|cbn [forallb]; rewrite Hnew by assumption; reflexivity
       |apply isoformat_encodable].
    eexists. eexists. split; [reflexivity|]. split; [reflexivity|].
    split; [eexists; reflexivity|]. split; [reflexivity|].
    cbn [file sound]. unfold encodable_journal.
    cbn [entries created_at last_updated forallb].
    rewrite Hnew, !isoformat_encodable by assumption. reflexivity.
  - rewrite (add_entry_fallback _ _ _ Corrupt k (or_intror eq_refl)).
    cbv zeta. rewrite save_data_ok;
      [|cbn [forallb]; rewrite Hnew by assumption; reflexivity
       |apply isoformat_encodable].
    eexists. eexists. split; [reflexivity|]. split; [reflexivity|].
    split; [eexists; reflexivity|]. split; [reflexivity|].
    cbn [file sound]. unfold encodable_journal.
    cbn [entries created_at last_updated forallb].
    rewrite Hnew, !isoformat_encodable by assumption. reflexivity.
  - unfold encodable_journal in Hs.
    apply andb_true_iff in Hs. destruct Hs as [Hs _].
    apply andb_true_iff in Hs. destruct Hs as [He Hc].
    assert (He' : forallb encodable_entry
                    (entries j
                     ++ [{| timestamp := strftime_minute (clock k);
                            text := text; sentiment := sentiment;
                            score := score |}]) = true).
    { rewrite forallb_app, He. cbn [forallb].
      rewrite Hnew by assumption. reflexivity. }
    rewrite add_entry_stored. cbv zeta.
    rewrite save_data_ok by assumption.
    eexists. eexists. split; [reflexivity|]. split; [reflexivity|].
    split; [eexists; reflexivity|]. split; [reflexivity|].
    cbn [file sound]. unfold encodable_journal.
    cbn [entries created_at last_updated].
    rewrite He', Hc, isoformat_encodable. reflexivity.
Qed.

Lemma add_entries_run (calls : list (str * str * float)) (w : World) :
  sound (file w) ->
  forallb encodable_call calls = true ->
  exists new w',
    add_entries clock calls w = (Ok new, w')
    /\ List.map submitted new = calls
    /\ (forall e, In e new ->
          exists k, timestamp e = strftime_minute (clock k))
    /\ stored_entries (file w') = stored_entries (file w) ++ new
    /\ sound (file w').
Proof.
  revert w. induction calls as [|[[text sentiment] score] rest IH];
    intros w Hs Hc.
  - exists [], w. cbn. rewrite app_nil_r.
    repeat split; [intros e [] | exact Hs].
  - cbn [forallb encodable_call] in Hc.
    apply andb_true_iff in Hc. destruct Hc as [Hc Hrest'].
    apply andb_true_iff in Hc. destruct Hc as [Ht Hl].
    destruct (add_entry_step text sentiment score w Hs Ht Hl)
      as (e & w1 & Hrun & Hsub & Hstamp & Hfile & Hs1).
    destruct (IH w1 Hs1 Hrest')
      as (es & w2 & Hrest & Hmap & Hstamps & Hfile2 & Hs2).
    exists (e :: es), w2. cbn [add_entries]. unfold bind at 1.
    rewrite Hrun. unfold bind at 1. rewrite Hrest. unfold ret.
    split; [reflexivity|]. split; [cbn; rewrite Hsub, Hmap; reflexivity|].
    split; [|split; [|exact Hs2]].
    + intros x [<- | Hx]; [exact Hstamp | apply Hstamps, Hx].
    + rewrite Hfile2, Hfile, <- app_assoc. reflexivity.
Qed.


End Store.

(* ===================================================================== *)
(** ** Timestamps read back *)
(* ===================================================================== *)

Lemma check_from_all (fuel : nat) (n : Z) :
  check_from fuel n = true ->
  forall i, n <= i < n + Z.of_nat fuel -> check_day i = true.
Proof.
  revert n. induction fuel as [|f IH]; intros n H i Hi; [lia|].
  cbn [check_from] in H. apply andb_true_iff in H. destruct H as [H0 H1].
  destruct (Z.eq_dec i n) as [-> | Hne]; [exact H0|].
  apply (IH (n + 1) H1). lia.
Qed.

Lemma first_cycle_checked : check_from (Z.to_nat DI400Y) 1 = true.
Proof. vm_compute. reflexivity. Qed.

Lemma check_day_cycle (i : Z) : 1 <= i <= DI400Y -> check_day i = true.
Proof.
  intros H. apply (check_from_all _ _ first_cycle_checked).
  rewrite Z2Nat.id by (unfold DI400Y; lia). lia.
Qed.

Lemma ord2ymd_cycle (n : Z) :
  ord2ymd n
  = let '(y, m, d) := ord2ymd ((n - 1) mod DI400Y + 1) in
    (y + 400 * ((n - 1) / DI400Y), m, d).
Proof.
  unfold ord2ymd. cbv zeta.
  replace ((n - 1) mod DI400Y + 1 - 1) with ((n - 1) mod DI400Y) by lia.
  rewrite Z.mod_mod by (unfold DI400Y; lia).
  rewrite (Z.div_small ((n - 1) mod DI400Y) DI400Y)
    by (apply Z.mod_pos_bound; unfold DI400Y; lia).
  set (r := (n - 1) mod DI400Y).
  destruct ((r mod DI100Y mod DI4Y / 365 =? 4) || (r / DI100Y =? 4)).
  - f_equal. f_equal. lia.
  - match goal with |- (if ?c then _ else _) = _ => destruct c end;
      f_equal; f_equal; lia.
Qed.

Lemma is_leap_cycle (y q : Z) : is_leap (y + 400 * q) = is_leap y.
Proof.
  unfold is_leap.
  replace ((y + 400 * q) mod 4) with (y mod 4)
    by (Z.div_mod_to_equations; lia).
  replace ((y + 400 * q) mod 100) with (y mod 100)
    by (Z.div_mod_to_equations; lia).
  replace ((y + 400 * q) mod 400) with (y mod 400)
    by (Z.div_mod_to_equations; lia).
  reflexivity.
Qed.

Lemma days_before_year_cycle (y q : Z) :
  days_before_year (y + 400 * q) = days_before_year y + DI400Y * q.
Proof.
  unfold days_before_year, DI400Y. cbv zeta.
  Z.div_mod_to_equations. lia.
Qed.

Lemma ymd2ord_cycle (y m d q : Z) :
  ymd2ord (y + 400 * q) m d = ymd2ord y m d + DI400Y * q.
Proof.
  unfold ymd2ord, days_before_month.
  rewrite days_before_year_cycle, is_leap_cycle. lia.
Qed.

Lemma days_in_month_cycle (y m q : Z) :
  days_in_month (y + 400 * q) m = days_in_month y m.
Proof. unfold days_in_month. rewrite is_leap_cycle. reflexivity. Qed.

Lemma days_before_year_mono (y : Z) :
  10000 <= y -> ymd2ord 9999 12 31 < days_before_year y + 1.
Proof.
  intros H. unfold days_before_year. cbv zeta.
  change (ymd2ord 9999 12 31) with 3652059.
  Z.div_mod_to_equations. lia.
Qed.

Lemma days_before_month_nonneg (y m : Z) : 0 <= days_before_month y m.
Proof.
  unfold days_before_month, month_entry.
  assert (H : 0 <= nth (Z.to_nat (m - 1)) DAYS_BEFORE_MONTH 0).
  { generalize (Z.to_nat (m - 1)). intros k.
    do 13 (destruct k as [|k]; [cbn; lia|]). cbn. destruct k; lia. }
  destruct ((2 <? m) && is_leap y); lia.
Qed.

(** The date of a day in [datetime]'s range is a valid date of that
    range, and it has that ordinal. *)
Lemma ord2ymd_valid (n : Z) :
  1 <= n <= ymd2ord 9999 12 31 ->
  let '(y, m, d) := ord2ymd n in
  1 <= y <= 9999 /\ 1 <= m <= 12 /\ 1 <= d <= days_in_month y m
  /\ ymd2ord y m d = n.
Proof.
  intros Hn. rewrite ord2ymd_cycle.
  assert (Hr : 1 <= (n - 1) mod DI400Y + 1 <= DI400Y).
  { pose proof (Z.mod_pos_bound (n - 1) DI400Y). unfold DI400Y in *. lia. }
  pose proof (check_day_cycle _ Hr) as C. unfold check_day in C.
  destruct (ord2ymd ((n - 1) mod DI400Y + 1)) as [[y m] d].
  rewrite !andb_true_iff, !Z.leb_le, Z.eqb_eq in C.
  destruct C as [[[[[[Y1 Y2] M1] M2] D1] D2] E].
  set (q := (n - 1) / DI400Y) in *.
  assert (Hq : 0 <= q) by (apply Z.div_pos; unfold DI400Y; lia).
  assert (Hord : ymd2ord (y + 400 * q) m d = n).
  { rewrite ymd2ord_cycle, E. subst q.
    pose proof (Z.div_mod (n - 1) DI400Y). unfold DI400Y in *. lia. }
  rewrite days_in_month_cycle.
  repeat split; try lia.
  destruct (Z.le_gt_cases (y + 400 * q) 9999) as [|Hbig]; [assumption|].
  exfalso.
  pose proof (days_before_year_mono (y + 400 * q)) as Hm.
  pose proof (days_before_month_nonneg (y + 400 * q) m).
  unfold ymd2ord in Hord at 1. lia.
Qed.

Lemma number_snoc (w : nat) (acc : Z) (s : str) :
  number (S w) acc s
  = bind_opt (number w acc s) (fun '(a, r) => number 1 a r).
Proof.
  revert acc s. induction w as [|w IH]; intros acc s; [reflexivity|].
  destruct s as [|c r]; [reflexivity|].
  change (number (S (S w)) acc (c :: r))
    with (if ((48 <=? c) && (c <=? 57))%N
          then number (S w) (acc * 10 + (Z.of_N c - 48)) r else None).
  change (number (S w) acc (c :: r))
    with (if ((48 <=? c) && (c <=? 57))%N
          then number w (acc * 10 + (Z.of_N c - 48)) r else None).
  destruct ((48 <=? c) && (c <=? 57))%N; [apply IH | reflexivity].
Qed.

Lemma number_digit (acc v : Z) (s : str) :
  number 1 acc (digit v :: s) = Some (acc * 10 + v mod 10, s).
Proof.
  pose proof (Z.mod_pos_bound v 10 ltac:(lia)) as B.
  unfold number, digit.
  assert (H1 : (48 <=? Z.to_N (48 + v mod 10))%N = true)
    by (apply N.leb_le; lia).
  assert (H2 : (Z.to_N (48 + v mod 10) <=? 57)%N = true)
    by (apply N.leb_le; lia).
  rewrite H1, H2. cbn [andb]. rewrite Z2N.id by lia.
  f_equal. f_equal. lia.
Qed.

(** A field written with [zpad] reads back as the number it shows. *)
Lemma number_zpad (w : nat) (v acc : Z) (s : str) :
  0 <= v < 10 ^ Z.of_nat w ->
  number w acc (zpad w v ++ s) = Some (acc * 10 ^ Z.of_nat w + v, s).
Proof.
  revert v acc s. induction w as [|w IH]; intros v acc s Hv.
  - cbn in *. f_equal. f_equal. lia.
  - rewrite Nat2Z.inj_succ, Z.pow_succ_r in * by lia.
    rewrite number_snoc. cbn [zpad]. rewrite <- app_assoc.
    rewrite IH by (Z.div_mod_to_equations; nia).
    cbn [bind_opt app]. rewrite number_digit.
    f_equal. f_equal. pose proof (Z.div_mod v 10). lia.
Qed.

Lemma scan_minute_written (y m d h mi : Z) :
  0 <= y < 10000 -> 0 <= m < 100 -> 0 <= d < 100 ->
  0 <= h < 100 -> 0 <= mi < 100 ->
  scan_minute
    (zpad 4 y ++ lit "-" ++ zpad 2 m ++ lit "-" ++ zpad 2 d ++ lit " "
     ++ zpad 2 h ++ lit ":" ++ zpad 2 mi)
  = Some (mk_fields y m d h mi 0 0).
Proof.
  intros Hy Hm Hd Hh Hmi. unfold scan_minute.
  rewrite (number_zpad 4) by (cbn; lia). cbn [bind_opt].
  change (lit "-") with [45%N]. change (lit " ") with [32%N].
  change (lit ":") with [58%N]. cbn [app expect N.eqb Pos.eqb bind_opt].
  do 3 (rewrite (number_zpad 2) by (cbn; lia);
        cbn [bind_opt app expect N.eqb Pos.eqb]).
  rewrite <- (app_nil_r (zpad 2 mi)).
  rewrite (number_zpad 2) by (cbn; lia). cbn [bind_opt].
  reflexivity.
Qed.

(** A year has 365 days, and one more when it is a leap year. *)
Lemma year_length (y : Z) :
  days_before_year (y + 1)
  = days_before_year y + 365 + (if is_leap y then 1 else 0).
Proof.
  unfold days_before_year, is_leap. cbv zeta.
  replace (y + 1 - 1) with y by lia.
  destruct (Z.eqb_spec (y mod 4) 0), (Z.eqb_spec (y mod 100) 0),
    (Z.eqb_spec (y mod 400) 0); cbn [negb andb orb];
    Z.div_mod_to_equations; lia.
Qed.

Lemma days_before_year_le (y z : Z) :
  y <= z -> days_before_year y <= days_before_year z.
Proof.
  intros H. unfold days_before_year. cbv zeta.
  Z.div_mod_to_equations. lia.
Qed.

Ltac table :=
  repeat match goal with
    | |- context [nth ?n ?l ?d] =>
        let v := eval vm_compute in (nth n l d) in
        change (nth n l d) with v
    | H : context [nth ?n ?l ?d] |- _ =>
        let v := eval vm_compute in (nth n l d) in
        change (nth n l d) with v in H
    | |- context [Z.eqb ?a ?b] =>
        let v := eval vm_compute in (Z.eqb a b) in
        change (Z.eqb a b) with v
    | H : context [Z.eqb ?a ?b] |- _ =>
        let v := eval vm_compute in (Z.eqb a b) in
        change (Z.eqb a b) with v in H
    | |- context [Z.ltb ?a ?b] =>
        let v := eval vm_compute in (Z.ltb a b) in
        change (Z.ltb a b) with v
    end;
  cbn [andb] in *.

Lemma date_within_year (y m d : Z) :
  1 <= m <= 12 -> d <= days_in_month y m ->
  days_before_month y m + d <= 365 + (if is_leap y then 1 else 0).
Proof.
  intros Hm Hd. unfold days_in_month, days_before_month, month_entry in *.
  assert (Hc : m = 1 \/ m = 2 \/ m = 3 \/ m = 4 \/ m = 5 \/ m = 6
               \/ m = 7 \/ m = 8 \/ m = 9 \/ m = 10 \/ m = 11 \/ m = 12)
    by lia.
  destruct (is_leap y);
    repeat (destruct Hc as [Hc | Hc]; [subst m; table; lia|]);
    subst m; table; lia.
Qed.

Lemma early_date (y m d : Z) :
  y <= 999 -> 1 <= m <= 12 -> d <= days_in_month y m ->
  ymd2ord y m d < ymd2ord 1000 1 1.
Proof.
  intros Hy Hm Hd. unfold ymd2ord at 1.
  pose proof (date_within_year y m d Hm Hd) as H1.
  pose proof (year_length y) as H2.
  pose proof (days_before_year_le (y + 1) 1000 ltac:(lia)) as H3.
  change (ymd2ord 1000 1 1) with (days_before_year 1000 + 1). lia.
Qed.

Lemma year_digits_four (y : Z) : 1000 <= y -> year_digits y = zpad 4 y.
Proof.
  intros H. unfold year_digits.
  rewrite !(proj2 (Z.ltb_ge _ _)) by lia. reflexivity.
Qed.

(** A timestamp the store writes, of the year 1000 or later, reads back
    as the minute it was written in. *)
Lemma strptime_strftime_minute (t : datetime) :
  Y1000 <= t <= MAX ->
  strptime_minute (strftime_minute t) = Ok (t - t mod US_PER_MINUTE).
Proof.
  intros Ht0.
  assert (HY : Y1000 = (ymd2ord 1000 1 1 - 1) * 86400000000)
    by reflexivity.
  assert (HY' : ymd2ord 1000 1 1 = 364878) by reflexivity.
  assert (Ht : 0 <= t <= MAX) by lia.
  unfold strptime_minute, strftime_minute, fields_of.
  assert (Hmax : MAX = 3652059 * 86400000000 - 1) by reflexivity.
  assert (Hday : US_PER_DAY = 86400000000) by reflexivity.
  assert (Hhour : US_PER_HOUR = 3600000000) by reflexivity.
  assert (Hmin : US_PER_MINUTE = 60000000) by reflexivity.
  assert (Hn : 1 <= t / US_PER_DAY + 1 <= ymd2ord 9999 12 31).
  { change (ymd2ord 9999 12 31) with 3652059. rewrite Hday.
    Z.div_mod_to_equations. lia. }
  pose proof (ord2ymd_valid _ Hn) as V.
  destruct (ord2ymd (t / US_PER_DAY + 1)) as [[y m] d].
  destruct V as (Vy & Vm & Vd & Vo).
  cbn [year month day hour minute second microsecond].
  assert (Hy4 : 1000 <= y).
  { destruct (Z.le_gt_cases 1000 y) as [|Hlt]; [assumption|]. exfalso.
    pose proof (early_date y m d ltac:(lia) Vm ltac:(lia)) as He.
    rewrite Vo, HY' in He. rewrite Hday in He.
    Z.div_mod_to_equations. lia. }
  rewrite (year_digits_four y Hy4).
  assert (Hdim : days_in_month y m <= 31).
  { unfold days_in_month, month_entry.
    destruct ((m =? 2) && is_leap y); [lia|].
    generalize (Z.to_nat (m - 1)). intros k.
    do 13 (destruct k as [|k]; [cbn; lia|]). cbn. destruct k; lia. }
  set (rest := t mod US_PER_DAY).
  assert (Hrest : 0 <= rest < 86400000000).
  { subst rest. rewrite Hday. apply Z.mod_pos_bound. lia. }
  assert (Hh : 0 <= rest / US_PER_HOUR <= 23).
  { rewrite Hhour. Z.div_mod_to_equations. lia. }
  assert (Hmi : 0 <= rest mod US_PER_HOUR / US_PER_MINUTE <= 59).
  { rewrite Hhour, Hmin. Z.div_mod_to_equations. lia. }
  rewrite scan_minute_written by lia.
  unfold valid_fields.
  cbn [year month day hour minute second microsecond].
  repeat match goal with
    | |- context [?a <=? ?b] =>
        rewrite (proj2 (Z.leb_le a b)) by lia
    end.
  cbn [andb]. f_equal. unfold of_fields.
  cbn [year month day hour minute second microsecond].
  rewrite Vo. subst rest. rewrite Hday, Hhour, Hmin.
  Z.div_mod_to_equations. lia.
Qed.

Section Written.

Variable clock : nat -> datetime.
Hypothesis modern : clock_modern clock.

Lemma add_entries_well_stamped (calls : list (str * str * float))
    (w : World) :
  sound (file w) ->
  forallb encodable_call calls = true ->
  well_stamped (stored_entries (file w)) ->
  well_stamped (stored_entries (file (snd (add_entries clock calls w)))).
Proof.
  intros Hsd Hc Hs.
  destruct (add_entries_run clock calls w Hsd Hc)
    as (new & w' & Hrun & _ & Hst & Hf & _).
  rewrite Hrun. cbn [snd]. rewrite Hf.
  intros e He. apply in_app_iff in He. destruct He as [He | He].
  - apply Hs, He.
  - destruct (Hst e He) as (k & ->). eexists.
    apply strptime_strftime_minute, modern.
Qed.

End Written.

(* ===================================================================== *)
(** ** Export and the operations that only read *)
(* ===================================================================== *)

Section Exporting.

Variable clock : nat -> datetime.
Variable pd : Pandas.


Lemma export_json (format : str) (w : World) :
  str_eqb (lower format) (lit "json") = true ->
  export_data clock pd format w
  = (match fst (_load_data clock w) with
     | Ok data => Ok (ExportJson data)
     | Raise e => Raise e
     end, snd (_load_data clock w)).
Proof.
  intros H. unfold export_data. rewrite H.
  unfold bind, ret. destruct (_load_data clock w) as [[data|e] w'];
    reflexivity.
Qed.

Lemma export_json_stored (j : Journal) (k : nat) :
  export_data clock pd (lit "json") (mk_world (Stored j) k)
  = (Ok (ExportJson j), mk_world (Stored j) k).
Proof. reflexivity. Qed.

(** A journal the program itself has written is exported with its three
    fields. *)
Lemma export_json_complete (j : Journal) (k : nat) (u : str) :
  last_updated j = Some u ->
  exists data,
    fst (export_data clock pd (lit "json") (mk_world (Stored j) k))
    = Ok (ExportJson data)
    /\ has_key data (lit "entries") = true
    /\ has_key data (lit "created_at") = true
    /\ has_key data (lit "last_updated") = true.
Proof.
  intros H. exists j. rewrite export_json_stored.
  unfold has_key, keys. rewrite H. repeat split.
Qed.

(** C2, at a backing file that is unparseable or missing: the exported
    record is the fallback of [_load_data], which holds [entries] and
    [created_at] and no [last_updated]. *)
Theorem export_json_unreadable (k : nat) :
  let fallback :=
    {| entries := []; created_at := isoformat (clock k);
       last_updated := None |} in
  fst (export_data clock pd (lit "json") (mk_world Corrupt k))
  = Ok (ExportJson fallback)
  /\ fst (export_data clock pd (lit "json") (mk_world Missing k))
     = Ok (ExportJson fallback)
  /\ has_key fallback (lit "entries") = true
  /\ has_key fallback (lit "created_at") = true
  /\ has_key fallback (lit "last_updated") = false.
Proof. repeat split. Qed.


Lemma get_statistics_file (w : World) :
  file (snd (get_statistics clock w)) = file w.
Proof. destruct w as [[| | |[[|e l] c u]] k]; reflexivity. Qed.

Lemma get_entries_as_dataframe_file (w : World) :
  file (snd (get_entries_as_dataframe clock pd w)) = file w.
Proof.
  destruct w as [[| | |[[|e l] c u]] k]; reflexivity.
Qed.

Lemma export_data_file (format : str) (w : World) :
  file (snd (export_data clock pd format w)) = file w.
Proof.
  unfold export_data.
  destruct (str_eqb (lower format) (lit "json")).
  - destruct w as [[| | |j] k]; reflexivity.
  - destruct (str_eqb (lower format) (lit "csv")); [|reflexivity].
    unfold bind, lift, ret.
    pose proof (get_entries_as_dataframe_file w) as H.
    destruct (get_entries_as_dataframe clock pd w) as [[df|e] w'];
      cbn [snd] in *; [|exact H].
    destruct (to_csv pd df); exact H.
Qed.

Lemma get_recent_entries_file (days : Z) (w : World) :
  file (snd (get_recent_entries clock days w)) = file w.
Proof.
  destruct w as [[| | |[[|e l] c u]] k]; try reflexivity.
  unfold get_recent_entries, bind, lift.
  rewrite get_all_entries_stored. cbn [entries].
  unfold datetime_now. cbn [file ticks].
  destruct (Timedelta_days days); [|reflexivity].
  destruct (sub (clock k) a); reflexivity.
Qed.

(** C10: [get_all_entries], [get_statistics], [export_data] and
    [get_recent_entries] leave the backing file, with its entries and
    both dates, exactly as they found it, whatever they return. *)
Theorem read_only_operations (format : str) (days : Z) (w : World) :
  file (snd (get_all_entries clock w)) = file w
  /\ file (snd (get_statistics clock w)) = file w
  /\ file (snd (export_data clock pd format w)) = file w
  /\ file (snd (get_recent_entries clock days w)) = file w.
Proof.
  split; [apply get_all_entries_file|].
  split; [apply get_statistics_file|].
  split; [apply export_data_file | apply get_recent_entries_file].
Qed.

End Exporting.

(* ===================================================================== *)
(** ** Statistics: the best and the worst day *)
(* ===================================================================== *)

(** The running choice of [max] and [min]: the item kept is replaced by a
    later one only when that one is strictly better. *)
Section Extremum.

Variables lt le : Entry -> Entry -> bool.
Variable ok : Entry -> Prop.

Hypothesis le_refl : forall a, ok a -> le a a = true.
Hypothesis le_of_not_lt :
  forall a b, ok a -> ok b -> lt a b = false -> le b a = true.
Hypothesis le_lt_trans :
  forall a b c, le a b = true -> lt b c = true -> lt a c = true.
Hypothesis lt_le : forall a b, lt a b = true -> le a b = true.

Lemma choose_first_best (rest before after : list Entry) (b : Entry) :
  (forall x, In x (before ++ b :: after ++ rest) -> ok x) ->
  (forall x, In x (before ++ b :: after) -> le x b = true) ->
  (forall x, In x before -> lt x b = true) ->
  first_best lt le (before ++ b :: after ++ rest)
    (fold_left (choose lt) rest b).
Proof.
  revert before after b.
  induction rest as [|x rest IH]; intros before after b Hok Hle Hlt.
  - rewrite app_nil_r. exists before, after. auto.
  - cbn [fold_left]. unfold choose at 2.
    assert (Hb : ok b) by (apply Hok; rewrite in_app_iff; right; left;
                           reflexivity).
    assert (Hx : ok x).
    { apply Hok. rewrite in_app_iff. right. right.
      rewrite in_app_iff. right. left. reflexivity. }
    destruct (lt b x) eqn:E.
    + replace (before ++ b :: after ++ x :: rest)
        with ((before ++ b :: after) ++ x :: [] ++ rest)
        by (rewrite <- app_assoc; reflexivity).
      apply IH.
      * intros y Hy. apply Hok.
        rewrite <- app_assoc in Hy. exact Hy.
      * intros y Hy. apply in_app_iff in Hy. destruct Hy as [Hy | [<- | []]].
        -- apply lt_le. apply le_lt_trans with b; [apply Hle, Hy | exact E].
        -- apply le_refl, Hx.
      * intros y Hy. apply le_lt_trans with b; [apply Hle, Hy | exact E].
    + replace (before ++ b :: after ++ x :: rest)
        with (before ++ b :: (after ++ [x]) ++ rest)
        by (rewrite <- app_assoc; reflexivity).
      apply IH.
      * intros y Hy. apply Hok.
        rewrite <- app_assoc in Hy. exact Hy.
      * intros y Hy. rewrite app_comm_cons, app_assoc in Hy.
        apply in_app_iff in Hy. destruct Hy as [Hy | [<- | []]].
        -- apply Hle, Hy.
        -- apply le_of_not_lt; assumption.
      * exact Hlt.
Qed.

Lemma fold_first_best (e : Entry) (rest : list Entry) :
  (forall x, In x (e :: rest) -> ok x) ->
  first_best lt le (e :: rest) (fold_left (choose lt) rest e).
Proof.
  intros Hok.
  apply (choose_first_best rest [] [] e).
  - exact Hok.
  - intros x [<- | []]. apply le_refl, Hok. left. reflexivity.
  - intros x [].
Qed.

End Extremum.

Section Statistics.

Variable clock : nat -> datetime.

Lemma max_by_score_first (e : Entry) (rest : list Entry) :
  numeric (e :: rest) ->
  exists b, max_by_score (e :: rest) = Some b /\ first_max (e :: rest) b.
Proof.
  intros Hn. eexists. split; [reflexivity|].
  apply (fold_first_best
           (fun a b => (score a <? score b)%float)
           (fun a b => (score a <=? score b)%float) is_number).
  - intros a. apply FloatOrder.leb_refl.
  - intros a b Ha Hb. apply FloatOrder.not_ltb_leb; assumption.
  - intros a b c. apply FloatOrder.leb_ltb_trans.
  - intros a b. apply FloatOrder.ltb_leb.
  - exact Hn.
Qed.

Lemma min_by_score_first (e : Entry) (rest : list Entry) :
  numeric (e :: rest) ->
  exists b, min_by_score (e :: rest) = Some b /\ first_min (e :: rest) b.
Proof.
  intros Hn. eexists. split; [reflexivity|].
  apply (fold_first_best
           (fun a b => (score b <? score a)%float)
           (fun a b => (score b <=? score a)%float) is_number).
  - intros a. apply FloatOrder.leb_refl.
  - intros a b Ha Hb. apply FloatOrder.not_ltb_leb; assumption.
  - intros a b c H1 H2. apply FloatOrder.ltb_leb_trans with (score b);
      assumption.
  - intros a b. apply FloatOrder.ltb_leb.
  - exact Hn.
Qed.

Lemma first_max_tied (e b : Entry) (rest : list Entry) :
  (forall x, In x (e :: rest) -> (score x =? score e)%float = true) ->
  first_max (e :: rest) b -> b = e.
Proof.
  intros Htie (before & after & Heq & _ & Hlt).
  destruct before as [|y before]; [injection Heq; auto|].
  injection Heq as <- Hrest. exfalso.
  assert (Hb : In b (e :: rest)).
  { right. rewrite Hrest. apply in_app_iff. right. left. reflexivity. }
  specialize (Htie b Hb). specialize (Hlt e (or_introl eq_refl)).
  apply FloatOrder.eqb_not_ltb in Htie. congruence.
Qed.

Lemma first_min_tied (e b : Entry) (rest : list Entry) :
  (forall x, In x (e :: rest) -> (score x =? score e)%float = true) ->
  first_min (e :: rest) b -> b = e.
Proof.
  intros Htie (before & after & Heq & _ & Hlt).
  destruct before as [|y before]; [injection Heq; auto|].
  injection Heq as <- Hrest. exfalso.
  assert (Hb : In b (e :: rest)).
  { right. rewrite Hrest. apply in_app_iff. right. left. reflexivity. }
  specialize (Htie b Hb). specialize (Hlt e (or_introl eq_refl)).
  apply FloatOrder.eqb_not_gtb in Htie. congruence.
Qed.

Lemma get_statistics_value (w : World) :
  file w <> Undecodable ->
  exists stats,
    fst (get_statistics clock w) = Ok stats
    /\ total_entries stats = List.length (stored_entries (file w))
    /\ best_day stats = max_by_score (stored_entries (file w))
    /\ worst_day stats = min_by_score (stored_entries (file w)).
Proof.
  intros H.
  destruct w as [[| | |[[|e l] c u]] k];
    try (exfalso; apply H; reflexivity);
    eexists; (split; [reflexivity|]); repeat split.
Qed.

(** C5: on a non-empty list of entries whose scores are numbers,
    [best_day] is the first entry with the greatest score and
    [worst_day] the first entry with the least score: no score is above
    the best one or below the worst one, and every entry before the
    chosen one is strictly worse.  When all scores are equal both are
    the first entry, so the two fields hold the same entry.  On the
    empty list both fields are [None]. *)
Theorem get_statistics_extrema (w : World) (all : list Entry) :
  fst (get_all_entries clock w) = Ok all ->
  numeric all ->
  exists stats,
    fst (get_statistics clock w) = Ok stats
    /\ match all with
       | [] => best_day stats = None /\ worst_day stats = None
       | first :: _ =>
           exists best worst,
             best_day stats = Some best
             /\ worst_day stats = Some worst
             /\ first_max all best
             /\ first_min all worst
             /\ ((forall x, In x all ->
                    (score x =? score first)%float = true) ->
                 best = first /\ worst = first)
       end.
Proof.
  intros Hall Hn. apply get_all_entries_ok in Hall.
  destruct Hall as [Hf ->].
  destruct (get_statistics_value w Hf) as (stats & Hrun & _ & Hb & Hw).
  exists stats. split; [exact Hrun|].
  destruct (stored_entries (file w)) as [|e rest].
  - split; assumption.
  - destruct (max_by_score_first e rest Hn) as (b & Hb' & Hmax).
    destruct (min_by_score_first e rest Hn) as (m & Hm' & Hmin).
    exists b, m. rewrite Hb, Hw. repeat split; try assumption.
    + apply (first_max_tied e b rest); assumption.
    + apply (first_min_tied e m rest); assumption.
Qed.

End Statistics.

(* ===================================================================== *)
(** ** The recency filter and the filters of the history page *)
(* ===================================================================== *)

Section Recency.

Variable clock : nat -> datetime.

Lemma well_stamped_tail (e : Entry) (rest : list Entry) :
  well_stamped (e :: rest) -> well_stamped rest.
Proof. intros H x Hx. apply H. right. exact Hx. Qed.

(** The loop keeps, in order, the entries at or after the cutoff. *)
Lemma recent_loop_filter (cutoff : datetime) (entries acc : list Entry) :
  well_stamped entries ->
  recent_loop cutoff entries acc
  = Ok (acc ++ filter
                 (fun e =>
                    match strptime_minute (timestamp e) with
                    | Ok t => cutoff <=? t
                    | Raise _ => false
                    end) entries).
Proof.
  revert acc. induction entries as [|e rest IH]; intros acc Hs.
  - cbn. rewrite app_nil_r. reflexivity.
  - cbn [recent_loop filter].
    destruct (Hs e (or_introl eq_refl)) as (t & Ht). rewrite Ht.
    rewrite Z.geb_leb.
    destruct (cutoff <=? t).
    + rewrite IH by (apply (well_stamped_tail e), Hs).
      rewrite <- app_assoc. reflexivity.
    + apply IH. apply (well_stamped_tail e), Hs.
Qed.

Lemma cutoff_value (now : datetime) (days : Z) :
  window_ok now days ->
  Timedelta_days days = Ok (days * US_PER_DAY)
  /\ sub now (days * US_PER_DAY) = Ok (now - days * US_PER_DAY).
Proof.
  intros [Hd [Hlo Hhi]]. unfold Timedelta_days, sub.
  apply Z.leb_le in Hd, Hlo, Hhi. rewrite Hd, Hlo, Hhi. split; reflexivity.
Qed.

Lemma get_recent_entries_stored (days : Z) (j : Journal) (k : nat) :
  well_stamped (entries j) ->
  window_ok (clock k) days ->
  fst (get_recent_entries clock days (mk_world (Stored j) k))
  = Ok (filter_by_recency (clock k) days (entries j)).
Proof.
  intros Hs Hw. unfold get_recent_entries, bind.
  rewrite get_all_entries_stored.
  destruct (entries j) as [|e rest] eqn:E; [reflexivity|].
  unfold datetime_now, lift. cbn [file ticks].
  destruct (cutoff_value _ _ Hw) as [-> ->]. cbn [fst].
  rewrite recent_loop_filter by exact Hs. reflexivity.
Qed.

Lemma is_recent_age (now : datetime) (days : Z) (e : Entry)
    (t : datetime) :
  strptime_minute (timestamp e) = Ok t ->
  (is_recent now days e = true <-> now - t <= days * US_PER_DAY).
Proof.
  intros Ht. unfold is_recent. rewrite Ht, Z.leb_le. lia.
Qed.

(** C4: on entries whose timestamps read back in the format they were
    written in, [get_recent_entries] returns, in order, exactly the
    entries with [timestamp >= now - days]: an entry is kept when its
    stored timestamp is at most [days] days old, the age of exactly
    [days] days included, and dropped when it is older. *)
Theorem get_recent_entries_window (days : Z) (j : Journal) (k : nat) :
  well_stamped (entries j) ->
  window_ok (clock k) days ->
  fst (get_recent_entries clock days (mk_world (Stored j) k))
  = Ok (filter_by_recency (clock k) days (entries j))
  /\ (forall e t,
        In e (entries j) ->
        strptime_minute (timestamp e) = Ok t ->
        (In e (filter_by_recency (clock k) days (entries j))
         <-> clock k - t <= days * US_PER_DAY))
  /\ (forall e,
        In e (entries j) ->
        strptime_minute (timestamp e) = Ok (clock k - days * US_PER_DAY) ->
        In e (filter_by_recency (clock k) days (entries j))).
Proof.
  intros Hs Hw. split; [apply get_recent_entries_stored; assumption|].
  split.
  - intros e t Hin Ht. unfold filter_by_recency.
    rewrite filter_In, (is_recent_age _ _ _ _ Ht). tauto.
  - intros e Hin Ht. unfold filter_by_recency.
    rewrite filter_In, (is_recent_age _ _ _ _ Ht). split; [exact Hin | lia].
Qed.

End Recency.

Section History.

Import App.

Variable clock : nat -> datetime.

Lemma score_eqb_refl (a : float) : score_eqb a a = true.
Proof.
  unfold score_eqb. destruct (is_nan a) eqn:N.
  - apply orb_true_r.
  - rewrite (FloatOrder.eqb_refl a N). reflexivity.
Qed.

Lemma entry_eqb_refl (e : Entry) : entry_eqb e e = true.
Proof.
  unfold entry_eqb. rewrite !str_eqb_refl. apply score_eqb_refl.
Qed.

Lemma entry_eqb_timestamp (a b : Entry) :
  entry_eqb a b = true -> timestamp a = timestamp b.
Proof.
  unfold entry_eqb. rewrite !andb_true_iff.
  intros [[[H _] _] _]. apply str_eqb_eq, H.
Qed.

(** Membership in the recent subset is the recency test itself. *)
Lemma contains_recent (now : datetime) (days : Z) (all : list Entry)
    (e : Entry) :
  In e all ->
  contains (filter_by_recency now days all) e = is_recent now days e.
Proof.
  intros Hin. unfold contains.
  destruct (is_recent now days e) eqn:R.
  - apply existsb_exists. exists e. split.
    + apply filter_In. auto.
    + apply entry_eqb_refl.
  - apply not_true_iff_false. intros H.
    apply existsb_exists in H. destruct H as (x & Hx & Heq).
    apply filter_In in Hx. destruct Hx as [_ Hx].
    apply entry_eqb_timestamp in Heq.
    unfold is_recent in *. rewrite Heq in Hx. congruence.
Qed.

Lemma filter_filter_in {A} (f g h : A -> bool) (l : list A) :
  (forall x, In x l -> g x && f x = h x) ->
  filter f (filter g l) = filter h l.
Proof.
  induction l as [|x l IH]; intros H; [reflexivity|].
  cbn [filter]. rewrite <- (H x (or_introl eq_refl)).
  assert (IH' : filter f (filter g l) = filter h l).
  { apply IH. intros y Hy. apply H. right. exact Hy. }
  destruct (g x); cbn [andb filter].
  - destruct (f x); rewrite IH'; reflexivity.
  - exact IH'.
Qed.

Lemma subscript_not_all_time (days_filter : str) (days : Z) :
  subscript days_map days_filter = Ok days ->
  str_eqb days_filter (lit "All time") = false.
Proof.
  intros H. apply str_eqb_neq. intros ->. vm_compute in H. discriminate.
Qed.

(** C8: with a label and a day window selected, the page's two steps,
    filtering by label and then keeping the entries found in the
    separately computed recent subset, give the same entries in the
    same order as one filter that tests
    [sentiment == label and timestamp >= now - days]. *)
Theorem journal_history_direct (label days_filter : str) (days : Z)
    (j : Journal) (k : nat) :
  str_eqb label (lit "All") = false ->
  subscript days_map days_filter = Ok days ->
  well_stamped (entries j) ->
  numeric (entries j) ->
  window_ok (clock k) days ->
  fst (journal_history clock label days_filter (mk_world (Stored j) k))
  = Ok (filter_direct label (clock k) days (entries j)).
Proof.
  intros Hl Hd Hs Hn Hw.
  unfold journal_history, bind. rewrite get_all_entries_stored.
  destruct (entries j) as [|e rest] eqn:E; [reflexivity|].
  rewrite Hl, (subscript_not_all_time _ _ Hd). cbn [negb].
  unfold lift at 1. rewrite Hd.
  pose proof (get_recent_entries_stored clock days j k) as Hr.
  rewrite E in Hr. specialize (Hr Hs Hw).
  destruct (get_recent_entries clock days (mk_world (Stored j) k))
    as [r w'].
  cbn [fst] in Hr. subst r. unfold ret. cbn [fst]. f_equal.
  unfold filter_direct. apply filter_filter_in.
  intros x Hx. rewrite (contains_recent _ _ _ _ Hx). reflexivity.
Qed.

End History.

(* ===================================================================== *)
(** ** Worked instances *)
(* ===================================================================== *)

Lemma sample_well_stamped : well_stamped (entries Sample.journal).
Proof.
  intros e [<- | [<- | [<- | [<- | []]]]]; eexists; vm_compute; reflexivity.
Qed.

Lemma sample_numeric : numeric (entries Sample.journal).
Proof. intros e [<- | [<- | [<- | [<- | []]]]]; reflexivity. Qed.

Lemma sample_window : window_ok (Sample.clock 0) 7.
Proof. vm_compute. repeat split; discriminate. Qed.

Example sample_clock_reads :
  strftime_minute (Sample.clock 0) = lit "2024-01-15 10:30"
  /\ isoformat (Sample.clock 7) = lit "2024-01-15T10:30:00.000007"
  /\ strptime_minute (lit "2024-01-15 10:30") = Ok (Sample.clock 0).
Proof. repeat split; vm_compute; reflexivity. Qed.

Example sample_recent :
  fst (get_recent_entries Sample.clock 7 Sample.world)
  = Ok [Sample.e_edge; Sample.e_new; Sample.e_tie].
Proof. vm_compute. reflexivity. Qed.

Example sample_statistics :
  exists stats,
    fst (get_statistics Sample.clock Sample.world) = Ok stats
    /\ total_entries stats = 4%nat
    /\ sentiment_distribution stats
       = [(Sentiment.Negative, 1); (Sentiment.Positive, 2);
          (Sentiment.Neutral, 1)]
    /\ best_day stats = Some Sample.e_edge
    /\ worst_day stats = Some Sample.e_old.
Proof. eexists. repeat split. Qed.

Example sample_export :
  fst (export_data Sample.clock Sample.pandas (lit "JSON") Sample.world)
  = Ok (ExportJson Sample.journal)
  /\ fst (export_data Sample.clock Sample.pandas (lit "xml") Sample.world)
     = Raise unsupported_format
  /\ fst (export_data Sample.clock Sample.pandas (lit "") Sample.world)
     = Raise unsupported_format.
Proof. repeat split. Qed.

Example sample_history :
  fst (App.journal_history Sample.clock Sentiment.Positive
         (lit "Last 7 days") Sample.world)
  = Ok [Sample.e_edge; Sample.e_tie].
Proof. vm_compute. reflexivity. Qed.

Example sample_unreadable :
  fst (get_all_entries Sample.clock (mk_world Corrupt 3)) = Ok []
  /\ fst (get_all_entries Sample.clock (mk_world Missing 3)) = Ok []
  /\ fst (get_all_entries Sample.clock (mk_world Undecodable 3))
     = Raise UnicodeDecodeError.
Proof. repeat split. Qed.

Lemma sample_sound : sound (file Sample.world).
Proof. vm_compute. reflexivity. Qed.


Lemma get_statistics_extrema_witness :
  fst (get_all_entries Sample.clock Sample.world)
  = Ok (entries Sample.journal)
  /\ numeric (entries Sample.journal)
  /\ exists stats,
       fst (get_statistics Sample.clock Sample.world) = Ok stats
       /\ exists best worst,
            best_day stats = Some best
            /\ worst_day stats = Some worst
            /\ first_max (entries Sample.journal) best
            /\ first_min (entries Sample.journal) worst
            /\ ((forall x, In x (entries Sample.journal) ->
                   (score x =? score Sample.e_old)%float = true) ->
                best = Sample.e_old /\ worst = Sample.e_old).
Proof.
  split; [reflexivity|]. split; [exact sample_numeric|].
  apply (get_statistics_extrema Sample.clock Sample.world
           (entries Sample.journal)).
  - reflexivity.
  - exact sample_numeric.
Defined.

Lemma get_recent_entries_window_witness :
  well_stamped (entries Sample.journal)
  /\ window_ok (Sample.clock 0) 7
  /\ fst (get_recent_entries Sample.clock 7 Sample.world)
     = Ok (filter_by_recency (Sample.clock 0) 7 (entries Sample.journal))
  /\ In Sample.e_edge
       (filter_by_recency (Sample.clock 0) 7 (entries Sample.journal))
  /\ ~ In Sample.e_old
         (filter_by_recency (Sample.clock 0) 7 (entries Sample.journal)).
Proof.
  split; [exact sample_well_stamped|]. split; [exact sample_window|].
  destruct (get_recent_entries_window Sample.clock 7 Sample.journal 0
              sample_well_stamped sample_window) as (Hrun & Hage & Hedge).
  split; [exact Hrun|]. split.
  - apply Hedge; [right; left; reflexivity | vm_compute; reflexivity].
  - rewrite (Hage Sample.e_old (of_fields (mk_fields 2024 1 8 10 29 0 0)))
      by (try (left; reflexivity); vm_compute; reflexivity).
    vm_compute. intros H. apply H. reflexivity.
Defined.

Lemma journal_history_direct_witness :
  str_eqb Sentiment.Positive (lit "All") = false
  /\ App.subscript App.days_map (lit "Last 7 days") = Ok 7
  /\ well_stamped (entries Sample.journal)
  /\ numeric (entries Sample.journal)
  /\ window_ok (Sample.clock 0) 7
  /\ fst (App.journal_history Sample.clock Sentiment.Positive
            (lit "Last 7 days") Sample.world)
     = Ok (filter_direct Sentiment.Positive (Sample.clock 0) 7
             (entries Sample.journal)).
Proof.
  split; [reflexivity|]. split; [reflexivity|].
  split; [exact sample_well_stamped|]. split; [exact sample_numeric|].
  split; [exact sample_window|].
  apply (journal_history_direct Sample.clock Sentiment.Positive
           (lit "Last 7 days") 7 Sample.journal 0).
  - reflexivity.
  - reflexivity.
  - exact sample_well_stamped.
  - exact sample_numeric.
  - exact sample_window.
Defined.

(* ===================================================================== *)
(** ** What the writing operations leave in the file *)
(* ===================================================================== *)

Section Writes.

Import Calls.

Variable clock : nat -> datetime.
Variable pd : Pandas.

Lemma initialize_missing (k : nat) :
  _initialize_data_file clock (mk_world Missing k)
  = (Ok tt,
     mk_world (Stored {| entries := [];
                         created_at := isoformat (clock k);
                         last_updated :=
                           Some (isoformat (clock (S (S k)))) |})
       (S (S (S k)))).
Proof.
  cbv [_initialize_data_file bind exists_ datetime_now file ticks negb].
  rewrite save_data_ok by (reflexivity || apply isoformat_encodable).
  reflexivity.
Qed.

Lemma clear_all_data_value (f : File) (k : nat) :
  clear_all_data clock (mk_world f k)
  = (Ok tt,
     mk_world (Stored {| entries := [];
                         created_at := isoformat (clock k);
                         last_updated :=
                           Some (isoformat (clock (S (S k)))) |})
       (S (S (S k)))).
Proof.
  cbv [clear_all_data bind datetime_now file ticks].
  rewrite save_data_ok by (reflexivity || apply isoformat_encodable).
  reflexivity.
Qed.

(** X1: [_initialize_data_file] returns without raising; it writes an
    empty journal with its three keys when the file is missing and
    touches nothing, not even the clock, when a file is there, readable
    or not; run again it changes nothing. *)
Theorem initialize_once (w : World) :
  let w1 := snd (_initialize_data_file clock w) in
  fst (_initialize_data_file clock w) = Ok tt
  /\ match file w with
     | Missing =>
         file w1
         = Stored {| entries := [];
                     created_at := isoformat (clock (ticks w));
                     last_updated :=
                       Some (isoformat (clock (S (S (ticks w))))) |}
     | Corrupt | Undecodable | Stored _ => w1 = w
     end
  /\ _initialize_data_file clock w1 = (Ok tt, w1).
Proof.
  destruct w as [[| | |j] k]; try (repeat split; fail).
  cbv zeta. rewrite initialize_missing. repeat split.
Qed.

(** X2: [clear_all_data] succeeds from every state of the file, also a
    missing or unparseable one; afterwards the journal has no entries, a
    new [created_at] and a [last_updated] taken two readings later (the
    one [_save_data] writes over the one built with the dictionary), and
    [get_all_entries] returns the empty list. *)
Theorem clear_all_data_resets (w : World) :
  let w1 := snd (clear_all_data clock w) in
  fst (clear_all_data clock w) = Ok tt
  /\ file w1
     = Stored {| entries := [];
                 created_at := isoformat (clock (ticks w));
                 last_updated :=
                   Some (isoformat (clock (S (S (ticks w))))) |}
  /\ fst (get_all_entries clock w1) = Ok [].
Proof.
  destruct w as [f k]. cbv zeta. rewrite clear_all_data_value.
  repeat split.
Qed.

(** X3: what [add_entry] leaves in the file.  On a journal it has read,
    it keeps [created_at] and the entries already there and appends the
    new one; on a missing file or one that is not JSON it starts a new
    journal that holds the new entry only, so whatever that file held is
    gone; in both cases it returns the entry it stored.  That is so when
    every string to write can be encoded: otherwise the write stops with
    a [UnicodeEncodeError] after the file was emptied, and the file is
    left cut off, the entries stored before being lost.  On a file that
    is not UTF-8 the load raises [UnicodeDecodeError] and nothing is
    written. *)
Theorem add_entry_file (text sentiment : str) (score : float) (w : World) :
  let r := add_entry clock text sentiment score w in
  match file w with
  | Stored j =>
      let e := {| timestamp := strftime_minute (clock (ticks w));
                  text := text; sentiment := sentiment; score := score |} in
      let data := {| entries := entries j ++ [e];
                     created_at := created_at j;
                     last_updated :=
                       Some (isoformat (clock (S (ticks w)))) |} in
      if encodable_journal data
      then fst r = Ok e /\ file (snd r) = Stored data
      else fst r = Raise UnicodeEncodeError /\ file (snd r) = Corrupt
  | Missing | Corrupt =>
      let e := {| timestamp := strftime_minute (clock (S (ticks w)));
                  text := text; sentiment := sentiment; score := score |} in
      let data := {| entries := [e];
                     created_at := isoformat (clock (ticks w));
                     last_updated :=
                       Some (isoformat (clock (S (S (ticks w))))) |} in
      if encodable text && encodable sentiment
      then fst r = Ok e /\ file (snd r) = Stored data
      else fst r = Raise UnicodeEncodeError /\ file (snd r) = Corrupt
  | Undecodable => r = (Raise UnicodeDecodeError, w)
  end.
Proof.
  destruct w as [[| | |j] k]; cbn [file ticks]; cbv zeta;
    [| |reflexivity|].
  - rewrite (add_entry_fallback clock _ _ _ Missing k (or_introl eq_refl)).
    cbv zeta. apply fallback_written.
  - rewrite (add_entry_fallback clock _ _ _ Corrupt k (or_intror eq_refl)).
    cbv zeta. apply fallback_written.
  - rewrite add_entry_stored. cbv zeta.
    unfold _save_data, bind, datetime_now, json_dump.
    cbn [file ticks entries created_at last_updated].
    destruct (encodable_journal _); split; reflexivity.
Qed.

Lemma call_sound (c : Call) (w : World) :
  encodable_request c = true ->
  sound (file w) -> complete (file w) ->
  sound (file (call clock pd c w)) /\ complete (file (call clock pd c w)).
Proof.
  intros Hc Hs (j & u & Hf & Hu). destruct w as [f k].
  cbn [file] in Hf, Hs. subst f.
  assert (Hk : sound (Stored j) /\ complete (Stored j)).
  { split; [exact Hs | exists j, u; split; [reflexivity | exact Hu]]. }
  destruct c as [| text sentiment score | | | format | days |];
    cbn [call].
  - exact Hk.
  - cbn [encodable_request] in Hc. apply andb_true_iff in Hc.
    destruct Hc as [Ht Hl].
    destruct (add_entry_step clock text sentiment score
                (mk_world (Stored j) k) Hs Ht Hl)
      as (e & w' & Hrun & _ & _ & _ & Hs').
    pose proof (add_entry_stored clock text sentiment score j k) as Hv.
    cbv zeta in Hv. rewrite Hrun in Hv.
    unfold _save_data, bind, datetime_now, json_dump in Hv.
    cbn [file ticks entries created_at last_updated] in Hv.
    rewrite Hrun. cbn [snd]. split; [exact Hs'|].
    destruct (encodable_journal _); [|discriminate].
    injection Hv as _ ->. eexists. eexists. split; reflexivity.
  - exact Hk.
  - rewrite get_statistics_file. exact Hk.
  - rewrite export_data_file. exact Hk.
  - rewrite get_recent_entries_file. exact Hk.
  - rewrite clear_all_data_value. cbn [snd file]. split.
    + cbn [sound]. unfold encodable_journal.
      cbn [entries created_at last_updated forallb].
      rewrite !isoformat_encodable. reflexivity.
    + eexists. eexists. split; reflexivity.
Qed.

Lemma run_sound (cs : list Call) (w : World) :
  forallb encodable_request cs = true ->
  sound (file w) -> complete (file w) ->
  complete (file (run clock pd cs w)).
Proof.
  revert w. induction cs as [|c cs IH]; intros w Hc Hs H; [exact H|].
  cbn [forallb] in Hc. apply andb_true_iff in Hc. destruct Hc as [Hc Hcs].
  destruct (call_sound c w Hc Hs H) as [Hs' H'].
  cbn [run fold_left]. apply IH; assumption.
Qed.

(** X4: a store the program created, by its initialisation on a missing
    file, exports a record with all three keys after every run of calls
    whose new entries hold strings that can be encoded, whatever the
    order and the other arguments of the calls and whether they return
    or raise. *)
Theorem created_store_exports_all_keys (cs : list Call) (k : nat) :
  forallb encodable_request cs = true ->
  let w0 := snd (_initialize_data_file clock (mk_world Missing k)) in
  let w := run clock pd cs w0 in
  exists data,
    fst (export_data clock pd (lit "json") w) = Ok (ExportJson data)
    /\ has_key data (lit "entries") = true
    /\ has_key data (lit "created_at") = true
    /\ has_key data (lit "last_updated") = true.
Proof.
  intros Hc w0 w.
  assert (H : complete (file w)).
  { apply run_sound; [exact Hc| |]; subst w0;
      rewrite initialize_missing; cbn [snd file].
    - cbn [sound]. unfold encodable_journal.
      cbn [entries created_at last_updated forallb].
      rewrite !isoformat_encodable. reflexivity.
    - eexists. eexists. split; reflexivity. }
  destruct H as (j & u & Hf & Hu). destruct w as [f n].
  cbn [file] in Hf. subst f.
  apply (export_json_complete clock pd j n u Hu).
Qed.

End Writes.

(* ===================================================================== *)
(** ** Timestamps written and read, and the recency window *)
(* ===================================================================== *)

Lemma demo_clock_modern : clock_modern Demo.clock.
Proof.
  intros k. unfold Demo.clock.
  change (of_fields (mk_fields 2024 1 15 10 30 0 0))
    with 63840911400000000.
  change Y1000 with 31525372800000000.
  change MAX with 315537897599999999.
  change US_PER_SECOND with 1000000.
  pose proof (Nat.le_min_r k 100). lia.
Qed.

Section Stamps.

Variable clock : nat -> datetime.

Lemma floor_minute_bounds (t : Z) :
  t - US_PER_MINUTE < t - t mod US_PER_MINUTE <= t.
Proof.
  pose proof (Z.mod_pos_bound t US_PER_MINUTE eq_refl). lia.
Qed.

(** X5: the timestamp of an entry [add_entry] has returned, written with
    ["%Y-%m-%d %H:%M"], is read back by [strptime] with the same format
    as the clock reading it was taken from, cut to the minute: never
    later than the reading and less than a minute before it.  The clock
    shows a year of four digits. *)
Theorem add_entry_timestamp_reads_back (text sentiment : str)
    (score : float) (w : World) (e : Entry) :
  clock_modern clock ->
  fst (add_entry clock text sentiment score w) = Ok e ->
  exists k t,
    timestamp e = strftime_minute (clock k)
    /\ strptime_minute (timestamp e) = Ok t
    /\ t = clock k - clock k mod US_PER_MINUTE
    /\ clock k - US_PER_MINUTE < t <= clock k.
Proof.
  intros Hc Hrun.
  destruct (add_entry_returned clock text sentiment score w e Hrun)
    as (k & j & _ & -> & _).
  exists k, (clock k - clock k mod US_PER_MINUTE). cbn [timestamp].
  split; [reflexivity|].
  split; [apply strptime_strftime_minute, Hc|].
  split; [reflexivity | apply floor_minute_bounds].
Qed.

(** X6: right after an [add_entry] that has returned,
    [get_recent_entries(days)] keeps the new entry exactly when the time
    from the start of the minute it was written in to the reading of the
    query is at most [days] days; with [days = 0] the entry is dropped
    as soon as the clock has moved past the start of that minute.  The
    clock shows a year of four digits and the timestamps stored before
    are in the format of the store. *)
Theorem fresh_entry_recency (text sentiment : str) (score : float)
    (days : Z) (w : World) (e : Entry) :
  clock_modern clock ->
  well_stamped (stored_entries (file w)) ->
  fst (add_entry clock text sentiment score w) = Ok e ->
  window_ok
    (clock (ticks (snd (add_entry clock text sentiment score w)))) days ->
  exists k recent,
    let w1 := snd (add_entry clock text sentiment score w) in
    timestamp e = strftime_minute (clock k)
    /\ ticks w1 = S (S k)
    /\ fst (get_recent_entries clock days w1) = Ok recent
    /\ (In e recent
        <-> clock (ticks w1) - (clock k - clock k mod US_PER_MINUTE)
            <= days * US_PER_DAY).
Proof.
  intros Hc Hs Hret Hw.
  destruct (add_entry_returned clock text sentiment score w e Hret)
    as (k & j & Hrun & He & Hj & _).
  assert (Hk : timestamp e = strftime_minute (clock k))
    by (rewrite He; reflexivity).
  rewrite Hrun in *. cbn [fst snd ticks] in *.
  assert (Ht : strptime_minute (timestamp e)
               = Ok (clock k - clock k mod US_PER_MINUTE))
    by (rewrite Hk; apply strptime_strftime_minute, Hc).
  assert (Hs' : well_stamped (entries j)).
  { rewrite Hj. intros x Hx. apply in_app_iff in Hx.
    destruct Hx as [Hx | [<- | []]]; [apply Hs, Hx | eexists; exact Ht]. }
  exists k, (filter_by_recency (clock (S (S k))) days (entries j)).
  cbn zeta. cbn [fst snd ticks].
  split; [exact Hk|]. split; [reflexivity|].
  split; [apply get_recent_entries_stored; assumption|].
  unfold filter_by_recency. rewrite filter_In, (is_recent_age _ _ _ _ Ht).
  rewrite Hj, in_app_iff. cbn [In]. tauto.
Qed.

Lemma get_recent_entries_nil (days : Z) (w : World) :
  fst (get_all_entries clock w) = Ok [] ->
  get_recent_entries clock days w = (Ok [], snd (get_all_entries clock w)).
Proof.
  destruct w as [[| | |[[|e l] c u]] k]; cbn; intros H;
    first [reflexivity | discriminate].
Qed.

(** X7: on a store whose listing is empty, be the file missing, not
    JSON, or an empty journal, [get_recent_entries] returns the empty
    list for every day count, also one for which no cutoff date exists,
    and reads the clock no more than [get_all_entries] does. *)
Theorem get_recent_entries_empty_store (days : Z) (w : World) :
  fst (get_all_entries clock w) = Ok [] ->
  fst (get_recent_entries clock days w) = Ok []
  /\ snd (get_recent_entries clock days w)
     = snd (get_all_entries clock w).
Proof.
  intros H. rewrite (get_recent_entries_nil days w H). split; reflexivity.
Qed.

Lemma recent_loop_ok (cutoff : datetime) (entries acc l : list Entry) :
  recent_loop cutoff entries acc = Ok l ->
  well_stamped entries.
Proof.
  revert acc. induction entries as [|e rest IH]; intros acc H.
  - intros x [].
  - cbn [recent_loop] in H.
    destruct (strptime_minute (timestamp e)) as [t|err] eqn:E;
      [|discriminate].
    assert (Hrest : well_stamped rest).
    { destruct (t >=? cutoff); eapply IH; exact H. }
    intros x [<- | Hx]; [eexists; exact E | apply Hrest, Hx].
Qed.

(** A call that returns has filtered the entries by the cutoff. *)
Lemma get_recent_entries_returns (days : Z) (j : Journal) (k : nat)
    (l : list Entry) :
  entries j <> [] ->
  fst (get_recent_entries clock days (mk_world (Stored j) k)) = Ok l ->
  l = filter_by_recency (clock k) days (entries j).
Proof.
  intros Hne. unfold get_recent_entries, bind.
  rewrite get_all_entries_stored.
  destruct (entries j) as [|e rest] eqn:E; [congruence|].
  unfold datetime_now, lift. cbn [file ticks].
  unfold Timedelta_days.
  destruct (Z.abs (days * US_PER_DAY * 1000) <=? 2 ^ 63 - 1);
    [|discriminate].
  unfold sub.
  destruct ((0 <=? clock k - days * US_PER_DAY)
            && (clock k - days * US_PER_DAY <=? MAX)); [|discriminate].
  cbn [fst]. intros H.
  pose proof (recent_loop_ok _ _ _ _ H) as Hs.
  rewrite (recent_loop_filter _ _ _ Hs) in H.
  injection H as <-. reflexivity.
Qed.

Lemma is_recent_mono (now : datetime) (d1 d2 : Z) (e : Entry) :
  d1 <= d2 -> is_recent now d1 e = true -> is_recent now d2 e = true.
Proof.
  unfold is_recent. intros Hd.
  destruct (strptime_minute (timestamp e)); [|discriminate].
  rewrite !Z.leb_le. unfold US_PER_DAY, US_PER_HOUR, US_PER_MINUTE,
    US_PER_SECOND. lia.
Qed.

(** X8: a wider window never loses an entry: when two calls of
    [get_recent_entries] at the same clock reading return, every entry
    the call with fewer days returns is returned by the other one,
    and both lists keep the order of the journal. *)
Theorem recent_grows_with_days (d1 d2 : Z) (w : World)
    (l1 l2 : list Entry) :
  d1 <= d2 ->
  fst (get_recent_entries clock d1 w) = Ok l1 ->
  fst (get_recent_entries clock d2 w) = Ok l2 ->
  (forall e, In e l1 -> In e l2)
  /\ exists keep1 keep2,
       l1 = filter keep1 (stored_entries (file w))
       /\ l2 = filter keep2 (stored_entries (file w)).
Proof.
  intros Hd H1 H2.
  destruct (stored_entries (file w)) as [|e0 rest] eqn:E.
  - assert (Hall : fst (get_all_entries clock w) = Ok []).
    { destruct w as [[| | |j] k]; cbn [file stored_entries] in E;
        [reflexivity | reflexivity | discriminate H1|].
      rewrite get_all_entries_stored, E. reflexivity. }
    rewrite (get_recent_entries_nil d1 w Hall) in H1.
    rewrite (get_recent_entries_nil d2 w Hall) in H2.
    cbn [fst] in H1, H2. injection H1 as <-. injection H2 as <-.
    split; [intros e []|]. exists (fun _ => true), (fun _ => true).
    split; reflexivity.
  - destruct w as [[| | |j] k]; cbn [file stored_entries] in E;
      try discriminate.
    assert (Hne : entries j <> []) by congruence.
    apply (get_recent_entries_returns _ _ _ _ Hne) in H1, H2.
    cbn [file stored_entries]. subst l1 l2. split.
    + intros e. unfold filter_by_recency. rewrite !filter_In.
      intros [Hin Hr]. split; [exact Hin|].
      apply (is_recent_mono _ d1); assumption.
    + exists (is_recent (clock k) d1), (is_recent (clock k) d2).
      unfold filter_by_recency. rewrite E. split; reflexivity.
Qed.

End Stamps.

(* ===================================================================== *)
(** ** Statistics: the distribution and the highlights *)
(* ===================================================================== *)

Section Distribution.

Import Measures Pages.

Variable clock : nat -> datetime.

Lemma str_eqb_sym (a b : str) : str_eqb a b = str_eqb b a.
Proof.
  destruct (str_eqb a b) eqn:E.
  - apply str_eqb_eq in E. subst. symmetry. apply str_eqb_refl.
  - symmetry. apply str_eqb_neq. apply str_eqb_neq in E. congruence.
Qed.

(** Lookup after update. *)
Lemma dict_get_set (d : list (str * Z)) (k k' : str) (v default : Z) :
  dict_get (dict_set d k v) k' default
  = if str_eqb k k' then v else dict_get d k' default.
Proof.
  induction d as [|[k0 v0] d IH]; cbn [dict_set dict_get].
  - reflexivity.
  - destruct (str_eqb k0 k) eqn:E0; cbn [dict_get].
    + apply str_eqb_eq in E0. subst k0.
      destruct (str_eqb k k'); reflexivity.
    + destruct (str_eqb k0 k') eqn:E1; [|exact IH].
      apply str_eqb_eq in E1. subst k0. rewrite str_eqb_sym, E0.
      reflexivity.
Qed.

Lemma dict_set_keys (d : list (str * Z)) (k : str) (v : Z) :
  List.map fst (dict_set d k v)
  = if existsb (fun k0 => str_eqb k0 k) (List.map fst d)
    then List.map fst d else List.map fst d ++ [k].
Proof.
  induction d as [|[k0 v0] d IH]; cbn [dict_set List.map existsb fst app];
    [reflexivity|].
  destruct (str_eqb k0 k); cbn [orb List.map fst]; [reflexivity|].
  rewrite IH. destruct (existsb _ _); reflexivity.
Qed.

Lemma dict_set_NoDup (d : list (str * Z)) (k : str) (v : Z) :
  NoDup (List.map fst d) -> NoDup (List.map fst (dict_set d k v)).
Proof.
  intros H. rewrite dict_set_keys.
  destruct (existsb _ _) eqn:E; [exact H|].
  apply NoDup_app; [exact H | repeat constructor; intros [] |].
  intros x Hx [Heq | []]. subst x.
  assert (C : existsb (fun k0 => str_eqb k0 k) (List.map fst d) = true).
  { apply existsb_exists. exists k. split; [exact Hx | apply str_eqb_refl]. }
  congruence.
Qed.

Lemma dict_get_In (d : list (str * Z)) (k : str) (v default : Z) :
  NoDup (List.map fst d) -> In (k, v) d -> dict_get d k default = v.
Proof.
  induction d as [|[k0 v0] d IH]; intros Hn Hin; [destruct Hin|].
  cbn [dict_get]. cbn [List.map fst] in Hn. inversion Hn as [|? ? Hk Hd].
  destruct Hin as [[= -> ->] | Hin].
  - rewrite str_eqb_refl. reflexivity.
  - destruct (str_eqb k0 k) eqn:E; [|apply IH; assumption].
    apply str_eqb_eq in E. exfalso. apply Hk. rewrite E.
    apply (in_map fst) in Hin. exact Hin.
Qed.

Lemma count_label_cons (label : str) (e : Entry) (l : list Entry) :
  count_label label (e :: l)
  = (if str_eqb (sentiment e) label then 1 else 0) + count_label label l.
Proof.
  unfold count_label. cbn [filter].
  destruct (str_eqb (sentiment e) label); cbn [List.length]; lia.
Qed.

(** The counting loop adds, to every count, the entries it has seen. *)
Lemma tally_counts (entries : list Entry) (d : list (str * Z))
    (label : str) :
  dict_get (fold_left tally entries d) label 0
  = dict_get d label 0 + count_label label entries.
Proof.
  revert d. induction entries as [|e l IH]; intros d.
  - cbn. unfold count_label. cbn. lia.
  - cbn [fold_left]. rewrite IH, count_label_cons. unfold tally.
    rewrite dict_get_set.
    destruct (str_eqb (sentiment e) label) eqn:E; [|lia].
    apply str_eqb_eq in E. subst label. lia.
Qed.

Lemma tally_NoDup (entries : list Entry) (d : list (str * Z)) :
  NoDup (List.map fst d) ->
  NoDup (List.map fst (fold_left tally entries d)).
Proof.
  revert d. induction entries as [|e l IH]; intros d H; [exact H|].
  cbn [fold_left]. apply IH. unfold tally. apply dict_set_NoDup, H.
Qed.

Lemma dict_set_In (d : list (str * Z)) (k : str) (v : Z) (k' : str)
    (v' : Z) :
  In (k', v') (dict_set d k v) -> In (k', v') d \/ (k' = k /\ v' = v).
Proof.
  induction d as [|[k0 v0] d IH]; cbn [dict_set].
  - intros [[= <- <-] | []]. right. split; reflexivity.
  - destruct (str_eqb k0 k) eqn:E.
    + apply str_eqb_eq in E. subst k0.
      intros [[= <- <-] | H]; [right; split; reflexivity | left; right; exact H].
    + intros [H | H]; [left; left; exact H|].
      destruct (IH H) as [H' | H']; [left; right; exact H' | right; exact H'].
Qed.

(** Every label in the dictionary has been seen. *)
Lemma tally_seen (entries : list Entry) (d : list (str * Z)) (k : str)
    (v : Z) :
  In (k, v) (fold_left tally entries d) ->
  (exists v0, In (k, v0) d) \/ exists e, In e entries /\ sentiment e = k.
Proof.
  revert d. induction entries as [|e l IH]; intros d H.
  - left. exists v. exact H.
  - cbn [fold_left] in H. destruct (IH _ H) as [[v0 H0] | [x [Hx Hk]]].
    + unfold tally in H0. apply dict_set_In in H0.
      destruct H0 as [H0 | [-> _]].
      * left. exists v0. exact H0.
      * right. exists e. split; [left|]; reflexivity.
    + right. exists x. split; [right; exact Hx | exact Hk].
Qed.

Lemma count_label_pos (label : str) (entries : list Entry) (e : Entry) :
  In e entries -> sentiment e = label -> 1 <= count_label label entries.
Proof.
  intros Hin Hl. unfold count_label.
  assert (H : In e (filter (fun x => str_eqb (sentiment x) label) entries)).
  { apply filter_In. split; [exact Hin|]. rewrite Hl. apply str_eqb_refl. }
  destruct (filter _ entries); [destruct H | cbn [List.length]; lia].
Qed.

Lemma get_statistics_distribution (w : World) :
  file w <> Undecodable ->
  exists stats,
    fst (get_statistics clock w) = Ok stats
    /\ total_entries stats = List.length (stored_entries (file w))
    /\ sentiment_distribution stats
       = fold_left tally (stored_entries (file w)) [].
Proof.
  intros H.
  destruct w as [[| | |[[|e l] c u]] k];
    try (exfalso; apply H; reflexivity);
    eexists; (split; [reflexivity|]); split; reflexivity.
Qed.

(** X10: on a store that [get_all_entries] can list, the distribution
    of [get_statistics] counts, for every label, the listed entries that
    carry it, a label no entry carries being absent (so that
    [.get(label, 0)] reads 0 for it); no label is listed twice, every
    listed count is at least 1, and the counts the Analytics page reads
    for Positive and Negative are the numbers of such entries.
    [total_entries] is the number of listed entries. *)
Theorem get_statistics_counts (w : World) (all : list Entry) :
  fst (get_all_entries clock w) = Ok all ->
  exists stats,
    fst (get_statistics clock w) = Ok stats
    /\ total_entries stats = List.length all
    /\ (forall label,
          dict_get (sentiment_distribution stats) label 0
          = count_label label all)
    /\ NoDup (List.map fst (sentiment_distribution stats))
    /\ (forall label n,
          In (label, n) (sentiment_distribution stats) ->
          n = count_label label all /\ 1 <= n)
    /\ positive_count stats = count_label Sentiment.Positive all
    /\ negative_count stats = count_label Sentiment.Negative all.
Proof.
  intros Hall. apply get_all_entries_ok in Hall. destruct Hall as [Hf ->].
  set (all := stored_entries (file w)).
  destruct (get_statistics_distribution w Hf) as (stats & Hrun & Htot & Hd).
  fold all in Htot, Hd.
  assert (Hget : forall label,
             dict_get (sentiment_distribution stats) label 0
             = count_label label all).
  { intros label. rewrite Hd, tally_counts. reflexivity. }
  assert (Hnd : NoDup (List.map fst (sentiment_distribution stats))).
  { rewrite Hd. apply tally_NoDup. constructor. }
  exists stats. split; [exact Hrun|]. split; [exact Htot|].
  split; [exact Hget|]. split; [exact Hnd|].
  split; [|split; apply Hget].
  intros label n Hin.
  assert (Hn : n = count_label label all).
  { rewrite <- Hget. symmetry. apply dict_get_In; assumption. }
  split; [exact Hn|]. subst n.
  rewrite Hd in Hin. apply tally_seen in Hin.
  destruct Hin as [[v0 []] | (e & He & Hl)].
  apply (count_label_pos label all e); assumption.
Qed.



End Distribution.

(* ===================================================================== *)
(** ** The classifier: order, symmetry and the display tables *)
(* ===================================================================== *)

Module FloatMirror.
Import FloatKey FloatOrder Measures.

Lemma fkey_opp (x : float) : fkey (- x) = option_map neg3 (fkey x).
Proof.
  unfold fkey. rewrite opp_spec.
  destruct (Prim2SF x) as [s|s| |s m e]; try destruct s;
    cbn [SFopp key option_map neg3 negb Z.opp];
    rewrite ?Z.opp_involutive; reflexivity.
Qed.

(** Negating both sides turns a comparison around. *)
Lemma leb_opp_r (x y : float) : (x <=? - y)%float = (y <=? - x)%float.
Proof.
  apply eq_iff_eq_true. rewrite !leb_rel. unfold rel.
  rewrite !fkey_opp.
  destruct (fkey x) as [[[a1 a2] a3]|], (fkey y) as [[[b1 b2] b3]|];
    cbn [option_map neg3]; unfold lex_lt, lex_eq; try tauto; lia.
Qed.

Lemma leb_opp_l (x y : float) : (- x <=? y)%float = (- y <=? x)%float.
Proof.
  apply eq_iff_eq_true. rewrite !leb_rel. unfold rel.
  rewrite !fkey_opp.
  destruct (fkey x) as [[[a1 a2] a3]|], (fkey y) as [[[b1 b2] b3]|];
    cbn [option_map neg3]; unfold lex_lt, lex_eq; try tauto; lia.
Qed.

End FloatMirror.

Section Labels.

Import Sentiment Measures Pages.

Lemma classify_opp (s : float) :
  classify (- s)
  = if (s <=? -0.05)%float then Positive
    else if (0.05 <=? s)%float then Negative
    else Neutral.
Proof.
  unfold classify.
  rewrite (FloatMirror.leb_opp_r 0.05 s).
  change (- 0.05)%float with (-0.05)%float.
  rewrite (FloatMirror.leb_opp_l s (-0.05)).
  change (- -0.05)%float with 0.05%float.
  reflexivity.
Qed.

(** X12: the labels follow the scores: of two compound scores, the
    greater never gets the lower label, Negative being below Neutral and
    Neutral below Positive. *)
Theorem classify_monotone (s1 s2 : float) :
  (s1 <=? s2)%float = true ->
  rank (classify s1) <= rank (classify s2).
Proof.
  intros H. unfold classify.
  destruct (0.05 <=? s1)%float eqn:P1.
  - rewrite (FloatOrder.leb_trans _ _ _ P1 H). reflexivity.
  - destruct (s1 <=? -0.05)%float eqn:N1.
    + destruct (0.05 <=? s2)%float; [vm_compute; discriminate|].
      destruct (s2 <=? -0.05)%float; vm_compute; discriminate.
    + destruct (0.05 <=? s2)%float eqn:P2; [vm_compute; discriminate|].
      destruct (s2 <=? -0.05)%float eqn:N2; [|vm_compute; discriminate].
      rewrite (FloatOrder.leb_trans _ _ _ H N2) in N1. discriminate.
Qed.

(** X13: the thresholds are symmetric: the opposite score gets the
    mirrored label, Positive for Negative and Negative for Positive, and
    Neutral stays; a score that is not a number is Neutral either way. *)
Theorem classify_mirror (s : float) :
  classify (- s) = mirror (classify s).
Proof.
  rewrite classify_opp. unfold classify.
  destruct (0.05 <=? s)%float eqn:P.
  - rewrite (thresholds_apart s P). reflexivity.
  - destruct (s <=? -0.05)%float; reflexivity.
Qed.

Lemma dict_lookup_three (a b c va vb vc key default : str) :
  dict_lookup [(a, va); (b, vb); (c, vc)] key default
  = if str_eqb a key then va
    else if str_eqb b key then vb
    else if str_eqb c key then vc else default.
Proof. reflexivity. Qed.

(** X14: the two display tables know the same three labels, spelled
    exactly: Positive is green with the smiling face, Negative red with
    the pensive face, and every other string, Neutral included, is gray
    with the neutral face; so a label gets the fallback colour exactly
    when it gets the fallback face. *)
Theorem display_tables_agree (label : str) :
  (get_sentiment_color label = GREEN <-> label = Positive)
  /\ (get_sentiment_color label = RED <-> label = Negative)
  /\ (get_sentiment_color label = GRAY
      <-> label <> Positive /\ label <> Negative)
  /\ (get_sentiment_emoji label = SMILING <-> label = Positive)
  /\ (get_sentiment_emoji label = PENSIVE <-> label = Negative)
  /\ (get_sentiment_emoji label = NEUTRAL_FACE
      <-> get_sentiment_color label = GRAY).
Proof.
  unfold get_sentiment_color, get_sentiment_emoji. cbv zeta.
  rewrite !dict_lookup_three.
  destruct (str_eqb Positive label) eqn:P.
  - apply str_eqb_eq in P. subst label.
    repeat split; intros; try discriminate; try reflexivity;
      try (exfalso; tauto).
  - apply str_eqb_neq in P.
    destruct (str_eqb Neutral label) eqn:U.
    + apply str_eqb_eq in U. subst label.
      repeat split; intros; try discriminate; try reflexivity;
        try congruence.
    + destruct (str_eqb Negative label) eqn:N.
      * apply str_eqb_eq in N. subst label.
        repeat split; intros; try discriminate; try reflexivity;
          try (exfalso; tauto).
      * apply str_eqb_neq in N.
        repeat split; intros; try discriminate; try reflexivity;
          try congruence.
Qed.

Variable polarity_scores : str -> float.

(** X15: the colour shown for an analysed text is decided by the score
    returned with it: green exactly for scores of 0.05 and more, red
    exactly for scores of -0.05 and less, gray otherwise. *)
Theorem analysis_colour (text : str) :
  let r := fst (analyze_sentiment polarity_scores text) in
  (get_sentiment_color (sentiment r) = GREEN
   <-> (0.05 <=? score r)%float = true)
  /\ (get_sentiment_color (sentiment r) = RED
      <-> (score r <=? -0.05)%float = true)
  /\ (get_sentiment_color (sentiment r) = GRAY
      <-> (0.05 <=? score r)%float = false
          /\ (score r <=? -0.05)%float = false).
Proof.
  intros r. pose proof (analyze_sentiment_label polarity_scores text) as L.
  fold r in L. cbv zeta in L. rewrite L. unfold classify.
  destruct (0.05 <=? score r)%float eqn:P.
  - rewrite (thresholds_apart _ P).
    repeat split; intros; try discriminate; try reflexivity.
    destruct H; discriminate.
  - destruct (score r <=? -0.05)%float;
      repeat split; intros; try discriminate; try reflexivity.
    destruct H; discriminate.
Qed.

End Labels.

Lemma classify_monotone_witness :
  (-0.3 <=? 0.2)%float = true
  /\ Measures.rank (Sentiment.classify (-0.3))
     <= Measures.rank (Sentiment.classify 0.2).
Proof.
  split; [reflexivity|]. apply (classify_monotone (-0.3) 0.2). reflexivity.
Defined.

(* ===================================================================== *)
(** ** The pages: the entry form, the history and the excerpts *)
(* ===================================================================== *)

Section Form.

Import Sentiment Measures Pages.

Variable polarity_scores : str -> float.
Variable clock : nat -> datetime.

Lemma truthy_strip (text : str) : truthy (strip text) = negb (blank text).
Proof.
  destruct (blank text) eqn:B.
  - apply strip_nil in B. rewrite B. reflexivity.
  - destruct (strip text) eqn:S; [|reflexivity].
    apply strip_nil in S. congruence.
Qed.

Lemma classify_encodable (s : float) : encodable (classify s) = true.
Proof.
  unfold classify.
  destruct (0.05 <=? s)%float; [reflexivity|].
  destruct (s <=? -0.05)%float; reflexivity.
Qed.

(** One run of the form on a text that is not blank. *)
Lemma new_entry_run (text : str) (w : World) :
  blank text = false ->
  new_entry polarity_scores clock true text w
  = match add_entry clock text (classify (polarity_scores text))
            (polarity_scores text) w with
    | (Ok e, w') =>
        (Ok (Saved e {| sentiment := classify (polarity_scores text);
                        score := polarity_scores text |}), w', [text])
    | (Raise x, w') => (Raise x, w', [text])
    end.
Proof.
  intros B. unfold new_entry. rewrite truthy_strip, B. cbn [negb andb].
  rewrite analyze_sentiment_cases, B. cbn [sentiment score].
  destruct (add_entry clock text _ _ w) as [[e|x] w']; reflexivity.
Qed.

Lemma new_entry_blank (submitted : bool) (text : str) (w : World) :
  blank text = true ->
  new_entry polarity_scores clock submitted text w
  = (Ok (if submitted then Asked else Idle), w, []).
Proof.
  intros B. unfold new_entry. rewrite truthy_strip, B.
  destruct submitted; reflexivity.
Qed.

(** A text that is not blank, submitted to a store that can be read
    and written. *)
Lemma new_entry_saved (text : str) (w : World) :
  blank text = false -> encodable text = true -> sound (file w) ->
  exists e a w',
    new_entry polarity_scores clock true text w
    = (Ok (Saved e a), w', [text])
    /\ DataManager.text e = text
    /\ DataManager.score e = polarity_scores text
    /\ DataManager.sentiment e = classify (polarity_scores text)
    /\ a = {| sentiment := DataManager.sentiment e;
              score := DataManager.score e |}
    /\ stored_entries (file w') = stored_entries (file w) ++ [e]
    /\ sound (file w').
Proof.
  intros B Ht Hs.
  destruct (add_entry_step clock text (classify (polarity_scores text))
              (polarity_scores text) w Hs Ht (classify_encodable _))
    as (e & w' & Hrun & Hsub & _ & Hfile & Hs').
  unfold submitted in Hsub. injection Hsub as H1 H2 H3.
  exists e, {| sentiment := classify (polarity_scores text);
               score := polarity_scores text |}, w'.
  rewrite (new_entry_run text w B), Hrun, H1, H2, H3.
  repeat split; assumption.
Qed.

(** X16: the entry form, given a text that is not blank and that UTF-8
    can encode, on a store it can read and write, calls the scorer once,
    on the text as typed, and stores one entry with that text, the
    score returned and the label of that score; a listing afterwards
    ends with that entry. *)
Theorem new_entry_form (text : str) (w : World) :
  blank text = false -> encodable text = true -> sound (file w) ->
  exists e a w',
    new_entry polarity_scores clock true text w
    = (Ok (Saved e a), w', [text])
    /\ DataManager.text e = text
    /\ DataManager.score e = polarity_scores text
    /\ DataManager.sentiment e = classify (polarity_scores text)
    /\ a = {| sentiment := DataManager.sentiment e;
              score := DataManager.score e |}
    /\ fst (get_all_entries clock w')
       = Ok (stored_entries (file w) ++ [e]).
Proof.
  intros B Ht Hs.
  destruct (new_entry_saved text w B Ht Hs)
    as (e & a & w' & H1 & H2 & H3 & H4 & H5 & H6 & H7).
  exists e, a, w'. rewrite get_all_entries_value, H6; [auto 10|].
  intros E. rewrite E in H7. exact H7.
Qed.

(** X22: the entry form does nothing until it is submitted; submitted
    with a blank text it stores nothing, leaves the world as it was,
    asks the user to write something and does not call the scorer;
    submitted with any other text it hands the scorer that text, as
    typed, once, whether or not the entry can then be stored. *)
Theorem new_entry_blank_asks (text : str) (w : World) :
  new_entry polarity_scores clock false text w = (Ok Idle, w, [])
  /\ if blank text
     then new_entry polarity_scores clock true text w = (Ok Asked, w, [])
     else snd (new_entry polarity_scores clock true text w) = [text].
Proof.
  split; [reflexivity|].
  destruct (blank text) eqn:B; [apply (new_entry_blank true), B|].
  rewrite (new_entry_run text w B).
  destruct (add_entry clock text _ _ w) as [[e|x] w']; reflexivity.
Qed.

Lemma session_cons (t : str) (rest : list str) (w : World) :
  session polarity_scores clock (t :: rest) w
  = session polarity_scores clock rest
      (snd (fst (new_entry polarity_scores clock true t w))).
Proof. reflexivity. Qed.

(** One step of a session: the file is left as it was, or without a
    readable entry, or with one more entry. *)
Lemma session_step (t : str) (w : World) :
  let w1 := snd (fst (new_entry polarity_scores clock true t w)) in
  file w1 = file w
  \/ stored_entries (file w1) = []
  \/ exists e,
       stored_entries (file w1) = stored_entries (file w) ++ [e]
       /\ labelled e.
Proof.
  cbv zeta. destruct (blank t) eqn:B.
  - rewrite (new_entry_blank true t w B). left. reflexivity.
  - rewrite (new_entry_run t w B).
    pose proof (add_entry_raised clock t (classify (polarity_scores t))
                  (polarity_scores t) w) as H.
    destruct (add_entry clock t _ _ w) as [[e|x] w'] eqn:Hrun;
      cbn [fst snd] in *.
    + right. right. exists e.
      pose proof (add_entry_returned clock t _ _ w e
                    (f_equal fst Hrun)) as (k & j & Hrun' & He & Hj & _).
      rewrite Hrun in Hrun'. injection Hrun' as ->.
      cbn [file stored_entries]. split; [exact Hj|].
      rewrite He. reflexivity.
    + destruct (H x eq_refl) as [-> | ->];
        [left; reflexivity | right; left; reflexivity].
Qed.

(** What a session adds to a store it can read and write. *)
Lemma session_run (texts : list str) (w : World) :
  sound (file w) -> forallb encodable texts = true ->
  exists new,
    stored_entries (file (session polarity_scores clock texts w))
    = stored_entries (file w) ++ new
    /\ List.map DataManager.text new
       = filter (fun t => negb (blank t)) texts
    /\ sound (file (session polarity_scores clock texts w)).
Proof.
  revert w. induction texts as [|t rest IH]; intros w Hs Hc.
  - exists []. cbn. rewrite app_nil_r. repeat split. exact Hs.
  - cbn [forallb] in Hc. apply andb_true_iff in Hc.
    destruct Hc as [Ht Hrest].
    rewrite session_cons. cbn [filter].
    destruct (blank t) eqn:B; cbn [negb].
    + rewrite (new_entry_blank true t w B). cbn [fst snd].
      apply IH; assumption.
    + destruct (new_entry_saved t w B Ht Hs)
        as (e & a & w' & Hrun & He & _ & _ & _ & Hf & Hs').
      rewrite Hrun. cbn [fst snd].
      destruct (IH w' Hs' Hrest) as (new & Hn & Hm & Hsn).
      exists (e :: new). rewrite Hn, Hf, <- app_assoc.
      split; [reflexivity|]. split; [cbn; rewrite He, Hm; reflexivity|].
      exact Hsn.
Qed.

(** X17: in a store filled through the entry form, every entry carries
    the label of its own score: if that holds of the entries already
    stored, it holds after any session of submissions. *)
Theorem session_keeps_labels (texts : list str) (w : World) :
  (forall e, In e (stored_entries (file w)) -> labelled e) ->
  forall e,
    In e (stored_entries (file (session polarity_scores clock texts w))) ->
    labelled e.
Proof.
  revert w. induction texts as [|t rest IH]; intros w H; [exact H|].
  rewrite session_cons. apply IH.
  destruct (session_step t w) as [Hf | [Hf | (x & Hf & Hx)]];
    rewrite Hf; [exact H | intros e [] |].
  intros e He. apply in_app_iff in He.
  destruct He as [He | [<- | []]]; [apply H, He | exact Hx].
Qed.

(** X18: a session of submissions whose texts UTF-8 can encode, on a
    store the form can read and write, adds to the store one entry for
    each text that is not blank, in the order submitted and with the
    text as typed, and none for a blank text; the entries stored before
    stay in front, unchanged. *)
Theorem session_stores_the_texts (texts : list str) (w : World) :
  sound (file w) -> forallb encodable texts = true ->
  exists new,
    fst (get_all_entries clock (session polarity_scores clock texts w))
    = Ok (stored_entries (file w) ++ new)
    /\ List.map DataManager.text new
       = filter (fun t => negb (blank t)) texts.
Proof.
  intros Hs Hc.
  destruct (session_run texts w Hs Hc) as (new & Hf & Hm & Hs').
  exists new. rewrite get_all_entries_value, Hf;
    [split; [reflexivity | exact Hm]|].
  intros E. rewrite E in Hs'. exact Hs'.
Qed.

End Form.

Section HistoryPage.

Import App Pages.

Variable clock : nat -> datetime.

(** X19: with "All time" selected, on a store that [get_all_entries]
    can list, the history page reads no timestamp: it returns every
    listed entry for "All" and the entries of the selected label
    otherwise, in journal order, also when timestamps are not in the
    format of the store. *)
Theorem journal_history_all_time (label : str) (w : World)
    (all : list Entry) :
  fst (get_all_entries clock w) = Ok all ->
  fst (journal_history clock label (lit "All time") w)
  = Ok (if str_eqb label (lit "All") then all
        else filter (fun e => str_eqb (sentiment e) label) all).
Proof.
  unfold journal_history, bind.
  destruct (get_all_entries clock w) as [[l|x] w']; cbn [fst];
    [|discriminate].
  intros [= ->]. destruct all as [|e rest];
    destruct (str_eqb label (lit "All")); reflexivity.
Qed.

(** X20: with a day window selected, the page shows the entries of the
    selected label, or of every label for "All", that are inside the
    window, whatever their scores: an entry whose score is not a number
    is shown like any other, since the page finds it in the recent list
    by the identity of the one NaN object that [json.load] gives.  The
    timestamps are in the format of the store and the cutoff date
    exists. *)
Theorem journal_history_any_score (label days_filter : str) (days : Z)
    (j : Journal) (k : nat) :
  subscript days_map days_filter = Ok days ->
  well_stamped (entries j) ->
  window_ok (clock k) days ->
  fst (journal_history clock label days_filter (mk_world (Stored j) k))
  = Ok (filter
          (fun e =>
             (str_eqb label (lit "All") || str_eqb (sentiment e) label)
             && is_recent (clock k) days e)
          (entries j)).
Proof.
  intros Hd Hs Hw.
  unfold journal_history, bind. rewrite get_all_entries_stored.
  destruct (entries j) as [|e rest] eqn:E; [reflexivity|].
  rewrite (subscript_not_all_time _ _ Hd). cbn [negb].
  unfold lift at 1. rewrite Hd.
  pose proof (get_recent_entries_stored clock days j k) as Hr.
  rewrite E in Hr. specialize (Hr Hs Hw).
  destruct (get_recent_entries clock days (mk_world (Stored j) k))
    as [r w'].
  cbn [fst] in Hr. subst r. unfold ret. cbn [fst]. f_equal.
  destruct (str_eqb label (lit "All")); cbn [negb orb andb].
  - apply filter_ext_in. intros x Hx. apply contains_recent, Hx.
  - apply filter_filter_in.
    intros x Hx. rewrite (contains_recent _ _ _ _ Hx). reflexivity.
Qed.

(** X21: the excerpt of an entry is the entry's text when it has at most
    100 characters, and its first 100 characters followed by three dots
    otherwise: never more than 103 characters, and always starting like
    the text. *)
Theorem excerpt_bounds (text : str) :
  (List.length (excerpt text) <= 103)%nat
  /\ firstn 100 (excerpt text) = firstn 100 text
  /\ if (100 <? List.length text)%nat
     then excerpt text = firstn 100 text ++ lit "..."
          /\ List.length (excerpt text) = 103%nat
     else excerpt text = text.
Proof.
  unfold excerpt.
  destruct (100 <? List.length text)%nat eqn:L.
  - apply Nat.ltb_lt in L.
    assert (Hl : List.length (firstn 100 text) = 100%nat)
      by (rewrite length_firstn; lia).
    split; [rewrite length_app, Hl; cbn; lia|].
    split; [|split; [reflexivity | rewrite length_app, Hl; reflexivity]].
    rewrite firstn_app, Hl, Nat.sub_diag, firstn_O, app_nil_r.
    rewrite firstn_firstn. reflexivity.
  - apply Nat.ltb_ge in L. rewrite app_nil_r.
    rewrite !firstn_all2 by exact L. repeat split; lia.
Qed.

End HistoryPage.

(* ===================================================================== *)
(** ** Further worked instances *)
(* ===================================================================== *)


(** A text that holds a lone surrogate, which UTF-8 cannot encode: the
    write fails, and the entries stored before are lost. *)
Example sample_unencodable :
  encodable [55296%N] = false
  /\ fst (add_entry Sample.clock [55296%N] Sentiment.Neutral 0
            Sample.world) = Raise UnicodeEncodeError
  /\ fst (get_all_entries Sample.clock
            (snd (add_entry Sample.clock [55296%N] Sentiment.Neutral 0
                    Sample.world))) = Ok [].
Proof. repeat split; vm_compute; reflexivity. Qed.

Lemma created_store_exports_all_keys_witness :
  forallb Calls.encodable_request
    [Calls.CallAdd (lit "slept well") Sentiment.Positive 0.5;
     Calls.CallStats; Calls.CallExport (lit "xml"); Calls.CallRecent 7;
     Calls.CallClear; Calls.CallInit;
     Calls.CallAdd (lit "a long week") Sentiment.Negative (-0.6);
     Calls.CallList] = true
  /\ exists data,
       fst (export_data Sample.clock Sample.pandas (lit "json")
              (Calls.run Sample.clock Sample.pandas
                 [Calls.CallAdd (lit "slept well") Sentiment.Positive 0.5;
                  Calls.CallStats; Calls.CallExport (lit "xml");
                  Calls.CallRecent 7; Calls.CallClear; Calls.CallInit;
                  Calls.CallAdd (lit "a long week") Sentiment.Negative
                    (-0.6);
                  Calls.CallList]
                 (snd (_initialize_data_file Sample.clock
                         (mk_world Missing 0)))))
       = Ok (ExportJson data)
       /\ has_key data (lit "entries") = true
       /\ has_key data (lit "created_at") = true
       /\ has_key data (lit "last_updated") = true.
Proof.
  split; [vm_compute; reflexivity|].
  apply (created_store_exports_all_keys Sample.clock Sample.pandas
           [Calls.CallAdd (lit "slept well") Sentiment.Positive 0.5;
            Calls.CallStats; Calls.CallExport (lit "xml");
            Calls.CallRecent 7; Calls.CallClear; Calls.CallInit;
            Calls.CallAdd (lit "a long week") Sentiment.Negative (-0.6);
            Calls.CallList] 0).
  vm_compute. reflexivity.
Defined.

Lemma demo_entry :
  fst (add_entry Demo.clock (lit "a wonderful day") Sentiment.Positive 0.6
         Sample.world)
  = Ok {| timestamp := lit "2024-01-15 10:30";
          text := lit "a wonderful day";
          sentiment := Sentiment.Positive; score := 0.6%float |}.
Proof. vm_compute. reflexivity. Qed.

Lemma add_entry_timestamp_reads_back_witness :
  clock_modern Demo.clock
  /\ fst (add_entry Demo.clock (lit "a wonderful day") Sentiment.Positive
            0.6 Sample.world)
     = Ok {| timestamp := lit "2024-01-15 10:30";
             text := lit "a wonderful day";
             sentiment := Sentiment.Positive; score := 0.6%float |}
  /\ exists k t,
       lit "2024-01-15 10:30" = strftime_minute (Demo.clock k)
       /\ strptime_minute (lit "2024-01-15 10:30") = Ok t
       /\ t = Demo.clock k - Demo.clock k mod US_PER_MINUTE
       /\ Demo.clock k - US_PER_MINUTE < t <= Demo.clock k.
Proof.
  split; [exact demo_clock_modern|]. split; [exact demo_entry|].
  apply (add_entry_timestamp_reads_back Demo.clock (lit "a wonderful day")
           Sentiment.Positive 0.6 Sample.world
           {| timestamp := lit "2024-01-15 10:30";
              text := lit "a wonderful day";
              sentiment := Sentiment.Positive; score := 0.6%float |}).
  - exact demo_clock_modern.
  - exact demo_entry.
Defined.

Lemma demo_window :
  window_ok
    (Demo.clock
       (ticks (snd (add_entry Demo.clock (lit "a wonderful day")
                      Sentiment.Positive 0.6 Sample.world)))) 0.
Proof. vm_compute. repeat split; discriminate. Qed.

Lemma fresh_entry_recency_witness :
  clock_modern Demo.clock
  /\ well_stamped (stored_entries (file Sample.world))
  /\ fst (add_entry Demo.clock (lit "a wonderful day") Sentiment.Positive
            0.6 Sample.world)
     = Ok {| timestamp := lit "2024-01-15 10:30";
             text := lit "a wonderful day";
             sentiment := Sentiment.Positive; score := 0.6%float |}
  /\ window_ok
       (Demo.clock
          (ticks (snd (add_entry Demo.clock (lit "a wonderful day")
                         Sentiment.Positive 0.6 Sample.world)))) 0
  /\ exists k recent,
       let w1 := snd (add_entry Demo.clock (lit "a wonderful day")
                        Sentiment.Positive 0.6 Sample.world) in
       lit "2024-01-15 10:30" = strftime_minute (Demo.clock k)
       /\ ticks w1 = S (S k)
       /\ fst (get_recent_entries Demo.clock 0 w1) = Ok recent
       /\ (In {| timestamp := lit "2024-01-15 10:30";
                 text := lit "a wonderful day";
                 sentiment := Sentiment.Positive; score := 0.6%float |}
             recent
           <-> Demo.clock (ticks w1)
               - (Demo.clock k - Demo.clock k mod US_PER_MINUTE)
               <= 0 * US_PER_DAY).
Proof.
  split; [exact demo_clock_modern|].
  split; [exact sample_well_stamped|].
  split; [exact demo_entry|].
  split; [exact demo_window|].
  apply (fresh_entry_recency Demo.clock (lit "a wonderful day")
           Sentiment.Positive 0.6 0 Sample.world
           {| timestamp := lit "2024-01-15 10:30";
              text := lit "a wonderful day";
              sentiment := Sentiment.Positive; score := 0.6%float |}).
  - exact demo_clock_modern.
  - exact sample_well_stamped.
  - exact demo_entry.
  - exact demo_window.
Defined.

(** With a window of no days the entry written a moment ago is not
    returned. *)
Example fresh_entry_dropped :
  fst (get_recent_entries Demo.clock 0
         (snd (add_entry Demo.clock (lit "a wonderful day")
                 Sentiment.Positive 0.6 Sample.world)))
  = Ok [].
Proof. vm_compute. reflexivity. Qed.

Lemma get_recent_entries_empty_store_witness :
  fst (get_all_entries Sample.clock (mk_world Corrupt 0)) = Ok []
  /\ fst (get_recent_entries Sample.clock (10 ^ 9) (mk_world Corrupt 0))
     = Ok []
  /\ snd (get_recent_entries Sample.clock (10 ^ 9) (mk_world Corrupt 0))
     = snd (get_all_entries Sample.clock (mk_world Corrupt 0)).
Proof.
  split; [reflexivity|].
  apply (get_recent_entries_empty_store Sample.clock (10 ^ 9)
           (mk_world Corrupt 0)).
  reflexivity.
Defined.

Lemma recent_grows_with_days_witness :
  7 <= 30
  /\ fst (get_recent_entries Sample.clock 7 Sample.world)
     = Ok [Sample.e_edge; Sample.e_new; Sample.e_tie]
  /\ fst (get_recent_entries Sample.clock 30 Sample.world)
     = Ok [Sample.e_old; Sample.e_edge; Sample.e_new; Sample.e_tie]
  /\ (forall e,
        In e [Sample.e_edge; Sample.e_new; Sample.e_tie] ->
        In e [Sample.e_old; Sample.e_edge; Sample.e_new; Sample.e_tie]).
Proof.
  assert (H7 : fst (get_recent_entries Sample.clock 7 Sample.world)
               = Ok [Sample.e_edge; Sample.e_new; Sample.e_tie])
    by (vm_compute; reflexivity).
  assert (H30 : fst (get_recent_entries Sample.clock 30 Sample.world)
                = Ok [Sample.e_old; Sample.e_edge; Sample.e_new;
                      Sample.e_tie])
    by (vm_compute; reflexivity).
  split; [lia|]. split; [exact H7|]. split; [exact H30|].
  apply (recent_grows_with_days Sample.clock 7 30 Sample.world
           [Sample.e_edge; Sample.e_new; Sample.e_tie]
           [Sample.e_old; Sample.e_edge; Sample.e_new; Sample.e_tie]);
    [lia | exact H7 | exact H30].
Defined.

Lemma get_statistics_counts_witness :
  fst (get_all_entries Sample.clock Sample.world)
  = Ok (entries Sample.journal)
  /\ exists stats,
       fst (get_statistics Sample.clock Sample.world) = Ok stats
       /\ total_entries stats = List.length (entries Sample.journal)
       /\ (forall label,
             dict_get (sentiment_distribution stats) label 0
             = Measures.count_label label (entries Sample.journal))
       /\ NoDup (List.map fst (sentiment_distribution stats))
       /\ (forall label n,
             In (label, n) (sentiment_distribution stats) ->
             n = Measures.count_label label (entries Sample.journal)
             /\ 1 <= n)
       /\ Pages.positive_count stats
          = Measures.count_label Sentiment.Positive (entries Sample.journal)
       /\ Pages.negative_count stats
          = Measures.count_label Sentiment.Negative
              (entries Sample.journal).
Proof.
  split; [reflexivity|].
  apply (get_statistics_counts Sample.clock Sample.world
           (entries Sample.journal)).
  reflexivity.
Defined.


Lemma new_entry_form_witness :
  blank (lit "a wonderful day") = false
  /\ encodable (lit "a wonderful day") = true
  /\ sound (file Sample.world)
  /\ exists e a w',
       Pages.new_entry Demo.scorer Demo.clock true (lit "a wonderful day")
         Sample.world
       = (Ok (Pages.Saved e a), w', [lit "a wonderful day"])
       /\ text e = lit "a wonderful day"
       /\ score e = Demo.scorer (lit "a wonderful day")
       /\ sentiment e
          = Sentiment.classify (Demo.scorer (lit "a wonderful day"))
       /\ a = {| Sentiment.sentiment := sentiment e;
                 Sentiment.score := score e |}
       /\ fst (get_all_entries Demo.clock w')
          = Ok (stored_entries (file Sample.world) ++ [e]).
Proof.
  split; [reflexivity|]. split; [reflexivity|]. split; [exact sample_sound|].
  apply (new_entry_form Demo.scorer Demo.clock (lit "a wonderful day")
           Sample.world).
  - reflexivity.
  - reflexivity.
  - exact sample_sound.
Defined.

Lemma sample_labelled :
  forall e, In e (stored_entries (file Sample.world)) -> Measures.labelled e.
Proof. intros e [<- | [<- | [<- | [<- | []]]]]; reflexivity. Qed.

Lemma session_keeps_labels_witness :
  (forall e, In e (stored_entries (file Sample.world)) ->
             Measures.labelled e)
  /\ forall e,
       In e (stored_entries
               (file (Pages.session Demo.scorer Demo.clock
                        [lit "a wonderful day"; lit "  ";
                         lit "a terrible day"] Sample.world))) ->
       Measures.labelled e.
Proof.
  split; [exact sample_labelled|].
  apply (session_keeps_labels Demo.scorer Demo.clock
           [lit "a wonderful day"; lit "  "; lit "a terrible day"]
           Sample.world).
  exact sample_labelled.
Defined.

Lemma session_stores_the_texts_witness :
  sound (file Sample.world)
  /\ forallb encodable
       [lit "a wonderful day"; lit "  "; lit "a terrible day"] = true
  /\ exists new,
       fst (get_all_entries Demo.clock
              (Pages.session Demo.scorer Demo.clock
                 [lit "a wonderful day"; lit "  "; lit "a terrible day"]
                 Sample.world))
       = Ok (stored_entries (file Sample.world) ++ new)
       /\ List.map text new
          = filter (fun t => negb (blank t))
              [lit "a wonderful day"; lit "  "; lit "a terrible day"].
Proof.
  split; [exact sample_sound|]. split; [reflexivity|].
  apply (session_stores_the_texts Demo.scorer Demo.clock
           [lit "a wonderful day"; lit "  "; lit "a terrible day"]
           Sample.world).
  - exact sample_sound.
  - reflexivity.
Defined.

Example sample_session :
  List.map submitted
    (stored_entries
       (file (Pages.session Demo.scorer Demo.clock
                [lit "a wonderful day"; lit "  "; lit "a terrible day"]
                (mk_world Missing 0))))
  = [(lit "a wonderful day", Sentiment.Positive, 0.6%float);
     (lit "a terrible day", Sentiment.Negative, (-0.5)%float)].
Proof. vm_compute. reflexivity. Qed.

Lemma journal_history_all_time_witness :
  fst (get_all_entries Sample.clock (mk_world (Stored Demo.broken) 0))
  = Ok (entries Demo.broken)
  /\ fst (App.journal_history Sample.clock Sentiment.Neutral
            (lit "All time") (mk_world (Stored Demo.broken) 0))
     = Ok (if str_eqb Sentiment.Neutral (lit "All")
           then entries Demo.broken
           else filter (fun e => str_eqb (sentiment e) Sentiment.Neutral)
                  (entries Demo.broken)).
Proof.
  split; [reflexivity|].
  apply (journal_history_all_time Sample.clock Sentiment.Neutral
           (mk_world (Stored Demo.broken) 0) (entries Demo.broken)).
  reflexivity.
Defined.

Lemma odd_well_stamped : well_stamped (entries Demo.odd).
Proof. intros e [<- | [<- | []]]; eexists; vm_compute; reflexivity. Qed.

Lemma journal_history_any_score_witness :
  App.subscript App.days_map (lit "Last 7 days") = Ok 7
  /\ well_stamped (entries Demo.odd)
  /\ window_ok (Sample.clock 0) 7
  /\ fst (App.journal_history Sample.clock (lit "All") (lit "Last 7 days")
            (mk_world (Stored Demo.odd) 0))
     = Ok (filter
             (fun e =>
                (str_eqb (lit "All") (lit "All")
                 || str_eqb (sentiment e) (lit "All"))
                && is_recent (Sample.clock 0) 7 e)
             (entries Demo.odd)).
Proof.
  split; [reflexivity|]. split; [exact odd_well_stamped|].
  split; [exact sample_window|].
  apply (journal_history_any_score Sample.clock (lit "All")
           (lit "Last 7 days") 7 Demo.odd 0).
  - reflexivity.
  - exact odd_well_stamped.
  - exact sample_window.
Defined.

(** The entry whose score is not a number is shown. *)
Example sample_nan_shown :
  is_nan (score Demo.e_nan) = true
  /\ fst (App.journal_history Sample.clock (lit "All") (lit "Last 7 days")
            (mk_world (Stored Demo.odd) 0))
     = Ok [Demo.e_nan; Sample.e_new].
Proof. split; vm_compute; reflexivity. Qed.
